(** * glTF importer, scene creation: [BlenderScene]

    A shallow embedding of
    [addons/io_scene_gltf2_osrs/blender/imp/gltf2_blender_scene.py]
    and the properties of its four static methods [create],
    [create_animations], [select_imported_objects] and
    [set_active_object].

    The Python code runs against the importer object [gltf] and against
    the host editor ([bpy]).  Both are made explicit: every method is a
    computation in a state-and-exception monad over a [World].  Calls into
    code that lives outside this file (the graph builder, the node
    materializer, the animation module, the extension hooks) are fields of
    an interface [Host]; each may raise.  Every call that leaves this file
    is recorded, in order, in a ghost [trace]. *)

From stdpp Require Import base option list gmap strings.
From Stdlib Require Import ZArith Sorted Ascii.

Local Open Scope string_scope.
Local Open Scope list_scope.
Local Open Scope Z_scope.

(** ** Python values and exceptions *)

(** The exceptions the code of this file can run into, and [HostError] for
    anything raised by a collaborator. *)
Inductive exn : Type :=
  | KeyError
  | IndexError
  | TypeError
  | AttributeError
  | HostError (msg : string).

Inductive result (A : Type) : Type :=
  | Ok (a : A)
  | Raise (e : exn).
Arguments Ok {A} a.
Arguments Raise {A} e.

Definition result_bind {A B} (r : result A) (k : A → result B) : result B :=
  match r with
  | Ok a => k a
  | Raise e => Raise e
  end.

#[global] Instance result_ret : MRet result := @Ok.
#[global] Instance result_mbind : MBind result :=
  λ A B k r, result_bind r k.

(** [l[i]] on a Python list: a negative index counts from the end, an
    index outside [-len l .. len l - 1] raises [IndexError]. *)
Definition py_getitem {A} (l : list A) (i : Z) : result A :=
  let n := Z.of_nat (length l) in
  let j := if i <? 0 then n + i else i in
  if (0 <=? j) && (j <? n) then
    match l !! Z.to_nat j with
    | Some a => Ok a
    | None => Raise IndexError
    end
  else Raise IndexError.

(** A Python [dict] keeps its keys in insertion order; [d[k]] raises
    [KeyError] for a missing key. *)
Definition pydict (K V : Type) : Type := list (K * V).

Fixpoint dict_get {K V} `{EqDecision K} (k : K) (d : pydict K V) : option V :=
  match d with
  | [] => None
  | (k', v) :: d' => if decide (k = k') then Some v else dict_get k d'
  end.

Definition dict_getitem {K V} `{EqDecision K} (d : pydict K V) (k : K)
  : result V :=
  match dict_get k d with
  | Some v => Ok v
  | None => Raise KeyError
  end.

Definition dict_values {K V} (d : pydict K V) : list V := d.*2.

(** Truth value of an optional list: [None] and [[]] are false. *)
Definition truthy {A} (l : option (list A)) : bool :=
  match l with
  | Some (_ :: _) => true
  | _ => false
  end.

(** ** Data model *)

(** A reference to a materialized host entity ([bpy.types.Object]). *)
Definition obj : Type := nat.

(** Keys of [gltf.vnodes]: the string ['root'] or a glTF node index. *)
Inductive vnode_id : Type :=
  | root
  | node (i : Z).

#[global] Instance vnode_id_eq_dec : EqDecision vnode_id.
Proof. solve_decision. Defined.

(** [VNode.Object], [VNode.Bone], [VNode.DummyRoot]. *)
Inductive VNodeType : Type :=
  | Object
  | Bone
  | DummyRoot.

#[global] Instance VNodeType_eq_dec : EqDecision VNodeType.
Proof. solve_decision. Defined.

(** Modelled from the spec: the class [VNode] of [gltf2_blender_vnode],
    which this file imports.  Of the attributes the data model lists
    (identifier, kind, transform, ordered children, parent, owning
    armature, materialized host entity) the record keeps the four this
    file reads.  [bone_arma] and [blender_object] are optional: [None]
    until assigned. *)
Record VNode : Type := mkVNode {
  type : VNodeType;
  children : list vnode_id;
  bone_arma : option vnode_id;
  blender_object : option obj
}.

(** An entry of [gltf.data.scenes]. *)
Record PyScene : Type := mkPyScene {
  nodes : option (list Z);
  extras : option string
}.

(** An entry of [gltf.data.animations]. *)
Record PyAnimation : Type := mkPyAnimation {
  track_name : string
}.

(** [gltf.data], the parsed document. *)
Record GltfData : Type := mkGltfData {
  scene : option Z;
  scenes : option (list PyScene);
  animations : option (list PyAnimation)
}.

(** The importer object [gltf]: the document and the attributes this file
    reads or assigns. *)
Record Gltf : Type := mkGltf {
  data : GltfData;
  vnodes : pydict vnode_id VNode;
  blender_scene : option string;
  blender_active_collection : option string;
  display_current_node : option Z
}.

(** The options object handed to the animation hook. *)
Record IMPORT_animation_options : Type := mkOptions {
  restore_first_anim : bool
}.

(** An entry of [bpy.data.objects], as far as [create] looks at it. *)
Record BObject : Type := mkBObject {
  ob_ref : obj;
  ob_name : string;
  ob_type : string;
  ob_parent_name : option string
}.

(** ** The trace *)

(** One constructor per call that leaves the file or writes host state,
    and one for each static method [create] enters. *)
Inductive Call : Type :=
  | CallHook (name : string) (pyscene : option PyScene)
  | CallAnimHook (name : string) (options : IMPORT_animation_options)
  | CallSetExtras (e : option string)
  | CallComputeVnodes
  | CallCreateVnode (id : vnode_id)
  | CallCreateAnimations
  | CallAnim (anim_idx : nat)
  | CallRestoreAnimation (anim_name : string)
  | CallModeSet (mode : string)
  | CallSelectImportedObjects
  | CallSelectAll (action : string)
  | CallSelectSet (o : obj)
  | CallSetActiveObject
  | SetActive (o : option obj)
  | CallRecenter (o : obj)
  | CallSplitInstance (o : obj).

(** ** Python string operations used on object names *)

(** [needle in hay]. *)
Fixpoint contains (needle hay : string) : bool :=
  String.prefix needle hay ||
  match hay with
  | EmptyString => false
  | String _ hay' => contains needle hay'
  end.

(** [s.split(sep)] for a one-character separator: never empty, and two
    separators in a row give an empty field. *)
Fixpoint split (sep : Ascii.ascii) (s : string) : list string :=
  match s with
  | EmptyString => [""]
  | String c s' =>
      if Ascii.eqb c sep then "" :: split sep s'
      else match split sep s' with
           | [] => [String c ""]
           | f :: fs => String c f :: fs
           end
  end.

(** ** The host and the collaborators *)

(** What this file asks of everything outside it, over a host state [X].
    The first six fields read [bpy] state: [bpy.context.scene.name],
    [bpy.context.collection.name], the names in [bpy.data.collections],
    [bpy.context.mode], [bpy.ops.object.select_all.poll()] and
    [bpy.data.objects].  The others are the functions imported at the top
    of the file and the operator [bpy.ops.object.mode_set]; they return
    the host state they leave and either a value or an exception.
    [import_user_extensions] is one Python function; it is given two
    types here, one for the scene hooks and one for the animation hook,
    which is handed the options object and may change it, so it returns
    the object as it leaves it.  [compute_vnodes] and [create_vnode]
    assign [gltf.vnodes] and the [blender_object] attributes, so they
    return the mapping.  The parsed document [gltf.data] is read-only for
    all of them.  [recenter_origin] stands for lines 98-103 and
    [split_instance] for lines 110-119 of [create]: vector arithmetic over
    floats and host data calls on one mesh object. *)
Class Host (X : Type) : Type := {
  scene_name : X → string;
  collection_name : X → string;
  data_collections : X → list string;
  context_mode : X → string;
  select_all_poll : X → bool;
  data_objects : X → list BObject;
  import_user_extensions :
    string → Gltf → option PyScene → X → X * result unit;
  import_user_extensions_animations :
    string → Gltf → option (list PyAnimation) → IMPORT_animation_options →
    X → X * result IMPORT_animation_options;
  set_extras : option string → X → X * result unit;
  compute_vnodes : Gltf → X → X * result (pydict vnode_id VNode);
  create_vnode : Gltf → vnode_id → X → X * result (pydict vnode_id VNode);
  anim : Gltf → nat → X → X * result unit;
  restore_animation : Gltf → string → X → X * result unit;
  mode_set : string → X → X * result unit;
  recenter_origin : BObject → X → X * result unit;
  split_instance : BObject → X → X * result unit
}.

(** A collaborator call that returns normally from every host state. *)
Definition never_raises {X A} (f : X → X * result A) : Prop :=
  ∀ x, ∃ a, (f x).2 = Ok a.

(** ** The world and the monad *)

Section World.
Context {X : Type}.

(** [scene.render.engine], the selection and the active object are the
    host state this file writes itself; they are kept apart from [X],
    which the collaborators own. *)
Record World : Type := mkWorld {
  gltf : Gltf;
  render_engine : string;
  selected : gset obj;
  active : option obj;
  host : X;
  trace : list Call
}.

Definition M (A : Type) : Type := World → World * result A.

Definition ret {A} (a : A) : M A := λ w, (w, Ok a).

Definition bind {A B} (m : M A) (k : A → M B) : M B :=
  λ w, match m w with
       | (w', Ok a) => k a w'
       | (w', Raise e) => (w', Raise e)
       end.

#[global] Instance M_ret : MRet M := @ret.
#[global] Instance M_bind : MBind M := λ A B k m, bind m k.

Definition get : M World := λ w, (w, Ok w).

Definition lift {A} (r : result A) : M A := λ w, (w, r).

Definition log (c : Call) : M unit :=
  λ w, (mkWorld (gltf w) (render_engine w) (selected w) (active w)
          (host w) (trace w ++ [c]), Ok tt).

(** An assignment to attributes of the importer object. *)
Definition modify_gltf (f : Gltf → Gltf) : M unit :=
  λ w, (mkWorld (f (gltf w)) (render_engine w) (selected w) (active w)
          (host w) (trace w), Ok tt).

Definition set_render_engine (e : string) : M unit :=
  λ w, (mkWorld (gltf w) e (selected w) (active w) (host w) (trace w),
        Ok tt).

Definition set_selected (s : gset obj) : M unit :=
  λ w, (mkWorld (gltf w) (render_engine w) s (active w) (host w)
          (trace w), Ok tt).

Definition set_active (o : option obj) : M unit :=
  λ w, (mkWorld (gltf w) (render_engine w) (selected w) o (host w)
          (trace w), Ok tt).

(** Run a collaborator on the host state; the world keeps the host
    state it leaves, also when it raises. *)
Definition run_host {A} (f : X → X * result A) : M A :=
  λ w, let (x', r) := f (host w) in
       (mkWorld (gltf w) (render_engine w) (selected w) (active w)
          x' (trace w), r).

(** A collaborator call: recorded, then run. *)
Definition call {A} (c : Call) (f : X → X * result A) : M A :=
  log c;; run_host f.

(** [for x in l: body x] *)
Fixpoint for_each {A} (l : list A) (body : A → M unit) : M unit :=
  match l with
  | [] => mret tt
  | x :: l' => body x;; for_each l' body
  end.
End World.

Arguments World X : clear implicits.
Arguments M X A : clear implicits.

(** ** The methods of [BlenderScene] *)

Module BlenderScene.
Section Methods.
Context {X : Type} `{Host X}.

(** *** [set_active_object] (lines 155-183) *)

(** [gltf.data.scenes[i]]; subscripting [None] is a [TypeError]. *)
Definition scenes_getitem (d : GltfData) (i : Z) : result PyScene :=
  match scenes d with
  | None => Raise TypeError
  | Some l => py_getitem l i
  end.

(** Lines 162-165. *)
Definition from_default_scene (g : Gltf) : result (option VNode) :=
  match scene (data g) with
  | Some i =>
      pyscene ← scenes_getitem (data g) i;
      match nodes pyscene with
      | Some (n :: _) => vnode ← dict_getitem (vnodes g) (node n);
                         mret (Some vnode)
      | _ => mret None
      end
  | None => mret None
  end.

(** Lines 168-171: the loop over the scenes, left at the first scene
    whose node list is not empty. *)
Fixpoint from_scenes (g : Gltf) (l : list PyScene)
  : result (option VNode) :=
  match l with
  | [] => mret None
  | pyscene :: l' =>
      match nodes pyscene with
      | Some (n :: _) => vnode ← dict_getitem (vnodes g) (node n);
                         mret (Some vnode)
      | _ => from_scenes g l'
      end
  end.

(** Lines 174-178; [None] is the [return] of line 177. *)
Definition from_root (g : Gltf) : result (option VNode) :=
  vnode ← dict_getitem (vnodes g) root;
  if decide (type vnode = DummyRoot) then
    match children vnode with
    | [] => mret None
    | c :: _ => vnode ← dict_getitem (vnodes g) c; mret (Some vnode)
    end
  else mret (Some vnode).

(** Lines 160-178.  A [VNode] instance is always true in a condition,
    so [not vnode] tests for [None]. *)
Definition resolve_vnode (g : Gltf) : result (option VNode) :=
  vnode ← from_default_scene g;
  vnode ← match vnode with
          | Some v => mret (Some v)
          | None => from_scenes g (default [] (scenes (data g)))
          end;
  match vnode with
  | Some v => mret (Some v)
  | None => from_root g
  end.

(** Lines 180-181.  A bone without [bone_arma] looks up the key [None],
    which no mapping holds. *)
Definition armature_of_bone (g : Gltf) (vnode : VNode) : result VNode :=
  if decide (type vnode = Bone) then
    match bone_arma vnode with
    | Some arma => dict_getitem (vnodes g) arma
    | None => Raise KeyError
    end
  else mret vnode.

Definition set_active_object : M X unit :=
  w ← get;
  vnode ← lift (resolve_vnode (gltf w));
  match vnode with
  | None => mret tt
  | Some vnode =>
      vnode ← lift (armature_of_bone (gltf w) vnode);
      log (SetActive (blender_object vnode));;
      set_active (blender_object vnode)
  end.

(** *** [select_imported_objects] (lines 145-153) *)

(** [vnode.blender_object.select_set(state=True)]; an absent
    [blender_object] has no [select_set]. *)
Definition select_set (vnode : VNode) : M X unit :=
  match blender_object vnode with
  | Some o => log (CallSelectSet o);;
              w ← get;
              set_selected ({[o]} ∪ selected w)
  | None => lift (Raise AttributeError)
  end.

(** Lines 152-153. *)
Definition select_if_object (vnode : VNode) : M X unit :=
  if decide (type vnode = Object) then select_set vnode else mret tt.

Definition select_imported_objects : M X unit :=
  w ← get;
  (if select_all_poll (host w)
   then log (CallSelectAll "DESELECT");; set_selected ∅
   else mret tt);;
  for_each (dict_values (vnodes (gltf w))) select_if_object.

(** *** [create_animations] (lines 122-143) *)

(** The branch [Some (first :: _)] is the true branch of
    [if gltf.data.animations:], in which [gltf.data.animations[0]] is
    [first]; [None] and the empty list are false. *)
Definition create_animations : M X unit :=
  w ← get;
  let g := gltf w in
  let animation_options := mkOptions true in
  animation_options ←
    call (CallAnimHook "gather_import_animations" animation_options)
      (import_user_extensions_animations "gather_import_animations" g
         (animations (data g)) animation_options);
  match animations (data g) with
  | Some ((first :: _) as anims) =>
      for_each (rev (seq 0 (length anims)))
        (λ anim_idx, call (CallAnim anim_idx) (anim g anim_idx));;
      if restore_first_anim animation_options then
        let anim_name := track_name first in
        call (CallRestoreAnimation anim_name)
          (restore_animation g anim_name)
      else mret tt
  | _ => mret tt
  end.

(** *** [create] (lines 30-119) *)

(** Lines 33-36. *)
Definition record_context : M X unit :=
  w ← get;
  let x := host w in
  modify_gltf (λ g,
    mkGltf (data g) (vnodes g) (Some (scene_name x))
      (if bool_decide (collection_name x ∈ data_collections x)
       then Some (collection_name x)
       else blender_active_collection g)
      (display_current_node g)).

(** Lines 37-38. *)
Definition ensure_render_engine : M X unit :=
  w ← get;
  if bool_decide (render_engine w ∈ ["CYCLES"; "BLENDER_EEVEE"])
  then mret tt
  else set_render_engine "BLENDER_EEVEE".

(** Lines 40-43.  The scene is looked up once as the hook's argument and
    once more for its extras. *)
Definition before_hook : M X unit :=
  w ← get;
  let g := gltf w in
  match scene (data g) with
  | Some i =>
      arg ← lift (scenes_getitem (data g) i);
      call (CallHook "gather_import_scene_before_hook" (Some arg))
        (import_user_extensions "gather_import_scene_before_hook" g
           (Some arg));;
      pyscene ← lift (scenes_getitem (data g) i);
      call (CallSetExtras (extras pyscene)) (set_extras (extras pyscene))
  | None => mret tt
  end.

Definition set_vnodes (vs : pydict vnode_id VNode) : M X unit :=
  modify_gltf (λ g,
    mkGltf (data g) vs (blender_scene g) (blender_active_collection g)
      (display_current_node g)).

(** Lines 45-48. *)
Definition build_and_materialize : M X unit :=
  w ← get;
  vs ← call CallComputeVnodes (compute_vnodes (gltf w));
  set_vnodes vs;;
  modify_gltf (λ g,
    mkGltf (data g) (vnodes g) (blender_scene g)
      (blender_active_collection g) (Some 0));;
  w ← get;
  vs ← call (CallCreateVnode root) (create_vnode (gltf w) root);
  set_vnodes vs.

(** Lines 64-67 and 72-75: a scene hook with the default scene, or
    [None] when the document has none. *)
Definition scene_hook (name : string) : M X unit :=
  w ← get;
  let g := gltf w in
  gltf_scene ← match scene (data g) with
               | Some i => pyscene ← lift (scenes_getitem (data g) i);
                           mret (Some pyscene)
               | None => mret None
               end;
  call (CallHook name gltf_scene) (import_user_extensions name g gltf_scene).

(** Lines 77-78. *)
Definition ensure_object_mode : M X unit :=
  w ← get;
  if String.eqb (context_mode (host w)) "OBJECT" then mret tt
  else call (CallModeSet "OBJECT") (mode_set "OBJECT").

(** Lines 87-90: the grouping key of a mesh object, read off its name
    and the name of its parent. *)
Definition mesh_key (ob : BObject) : result (string * string * string) :=
  let name := hd "" (split "."%char (ob_name ob)) in
  id ← py_getitem (split "_"%char name) 1;
  parent ← match ob_parent_name ob with
           | Some p => Ok p
           | None => Raise AttributeError
           end;
  type ← py_getitem (split "_"%char parent) 2;
  rotatstring ← py_getitem (split "_"%char name) 4;
  mret (type, id, rotatstring).

(** Lines 91-93: append under the key, a new key going last. *)
Fixpoint dict_append {K V} `{EqDecision K}
    (k : K) (v : V) (d : pydict K (list V)) : pydict K (list V) :=
  match d with
  | [] => [(k, [v])]
  | (k', vs) :: d' =>
      if decide (k = k') then (k', vs ++ [v]) :: d'
      else (k', vs) :: dict_append k v d'
  end.

(** Lines 82-93. *)
Fixpoint group_meshes (obs : list BObject)
    (mesh_objects : pydict (string * string * string) (list BObject))
  : result (pydict (string * string * string) (list BObject)) :=
  match obs with
  | [] => Ok mesh_objects
  | ob :: obs' =>
      if String.eqb (ob_type ob) "MESH" then
        if contains "tiles" (ob_name ob) || contains "type" (ob_name ob)
        then group_meshes obs' mesh_objects
        else key ← mesh_key ob;
             group_meshes obs' (dict_append key ob mesh_objects)
      else group_meshes obs' mesh_objects
  end.

(** Lines 82-119. *)
Definition regroup_meshes : M X unit :=
  w ← get;
  mesh_objects ← lift (group_meshes (data_objects (host w)) []);
  for_each mesh_objects (λ entry,
    for_each entry.2 (λ mesh,
      call (CallRecenter (ob_ref mesh)) (recenter_origin mesh)));;
  for_each mesh_objects (λ entry,
    for_each (drop 1 entry.2) (λ mesh_obj,
      call (CallSplitInstance (ob_ref mesh_obj)) (split_instance mesh_obj))).

Definition create : M X unit :=
  record_context;;
  ensure_render_engine;;
  before_hook;;
  build_and_materialize;;
  scene_hook "gather_import_scene_after_nodes_hook";;
  log CallCreateAnimations;;
  create_animations;;
  scene_hook "gather_import_scene_after_animation_hook";;
  ensure_object_mode;;
  log CallSelectImportedObjects;;
  select_imported_objects;;
  log CallSetActiveObject;;
  set_active_object;;
  regroup_meshes.
End Methods.
End BlenderScene.

(** ** A reference host

    A small host to run the methods on: the collaborators never raise,
    the graph builder returns a graph fixed in advance, the materializer
    gives every [Object] node a host entity, and the animation hook
    overrides [restore_first_anim] when told to. *)

Module Reference.
Record State : Type := mkState {
  mode : string;
  poll : bool;
  objects : list BObject;
  graph : pydict vnode_id VNode;
  hook_override : option bool
}.

(** The entity of the node [id]: [0] for the root, [i + 1] for node [i]. *)
Definition entity (id : vnode_id) : obj :=
  match id with
  | root => 0%nat
  | node i => S (Z.to_nat i)
  end.

Definition materialize (entry : vnode_id * VNode) : vnode_id * VNode :=
  let (id, v) := entry in
  (id, mkVNode (type v) (children v) (bone_arma v)
         (if decide (type v = Object) then Some (entity id) else None)).

Definition run_hook (o : IMPORT_animation_options)
    (override : option bool) : IMPORT_animation_options :=
  match override with
  | Some b => mkOptions b
  | None => o
  end.

#[global] Instance host : Host State := {|
  scene_name := λ _, "Scene";
  collection_name := λ _, "Collection";
  data_collections := λ _, ["Collection"];
  context_mode := mode;
  select_all_poll := poll;
  data_objects := objects;
  import_user_extensions := λ _ _ _ x, (x, Ok tt);
  import_user_extensions_animations :=
    λ _ _ _ o x, (x, Ok (run_hook o (hook_override x)));
  set_extras := λ _ x, (x, Ok tt);
  compute_vnodes := λ _ x, (x, Ok (graph x));
  create_vnode := λ g _ x, (x, Ok (materialize <$> vnodes g));
  anim := λ _ _ x, (x, Ok tt);
  restore_animation := λ _ _ x, (x, Ok tt);
  mode_set := λ m x,
    (mkState m (poll x) (objects x) (graph x) (hook_override x), Ok tt);
  recenter_origin := λ _ x, (x, Ok tt);
  split_instance := λ _ x, (x, Ok tt)
|}.

Definition empty_gltf (d : GltfData) : Gltf := mkGltf d [] None None None.

Definition world (d : GltfData) (x : State) : World State :=
  mkWorld (empty_gltf d) "BLENDER_WORKBENCH" ∅ None x [].

(** One scene with two root nodes, no animation. *)
Definition two_roots : GltfData :=
  mkGltfData (Some 0) (Some [mkPyScene (Some [0; 1]) None]) None.

Definition two_roots_graph : pydict vnode_id VNode :=
  [(node 0, mkVNode Object [] None None);
   (node 1, mkVNode Object [] None None);
   (root, mkVNode DummyRoot [node 0; node 1] None None)].
End Reference.

(** ** Active-object resolution *)

Section Resolution.
Implicit Types (g : Gltf) (d : GltfData) (s : PyScene).

(** The scene the document designates, when the index names one. *)
Definition scene_at d (i : Z) : option PyScene :=
  match BlenderScene.scenes_getitem d i with
  | Ok s => Some s
  | Raise _ => None
  end.

Definition has_nodes s : bool := truthy (nodes s).

(** The virtual node of the first root node a scene lists. *)
Definition first_root_of g s : option VNode :=
  n ← head (default [] (nodes s)); dict_get (node n) (vnodes g).

(** (a) the first root node listed under the designated default scene *)
Definition rule_a g : option VNode :=
  i ← scene (data g); s ← scene_at (data g) i; first_root_of g s.

(** (c) the first child of the [DummyRoot] *)
Definition rule_c g : option VNode :=
  r ← dict_get root (vnodes g);
  if decide (type r = DummyRoot)
  then c ← head (children r); dict_get c (vnodes g)
  else None.

Definition or_else {A} (o1 o2 : option A) : option A :=
  match o1 with
  | Some a => Some a
  | None => o2
  end.

(** The priority order in the words of the spec, with
    (b) the first root node of the first scene in declaration order,
    and (d) none. *)
Definition stated_resolution g : option VNode :=
  or_else (rule_a g)
    (or_else (s ← head (default [] (scenes (data g))); first_root_of g s)
       (rule_c g)).

(** The same with (b) the first root node of the first scene, in
    declaration order, that lists a root node. *)
Definition amended_resolution g : option VNode :=
  or_else (rule_a g)
    (or_else (s ← List.find has_nodes (default [] (scenes (data g)));
              first_root_of g s)
       (rule_c g)).

(** Every identifier the resolution can follow is in the graph: the
    default scene exists, the nodes the scenes list and the children of
    the root are keys of [gltf.vnodes], and ['root'] is the
    [DummyRoot]. *)
Definition has_key g (id : vnode_id) : bool :=
  bool_decide (is_Some (dict_get id (vnodes g))).

Definition scene_ok g s : bool :=
  forallb (λ n, has_key g (node n)) (default [] (nodes s)).

Definition wf_gltf g : bool :=
  match scene (data g) with
  | Some i => bool_decide (is_Some (scene_at (data g) i))
  | None => true
  end
  && forallb (scene_ok g) (default [] (scenes (data g)))
  && match dict_get root (vnodes g) with
     | Some r => bool_decide (type r = DummyRoot)
                 && forallb (has_key g) (children r)
     | None => false
     end.
End Resolution.

(** ** Judgements on runs *)

Definition is_ok {A} (r : result A) : bool :=
  match r with
  | Ok _ => true
  | Raise _ => false
  end.

Section Judgements.
Context {X : Type}.
Implicit Types (w : World X) (d : GltfData) (evs : list Call).

(** A computation leaves an observation of the world alone. *)
Definition preserves {T A} (f : World X → T) (m : M X A) : Prop :=
  ∀ w, f (m w).1 = f w.

(** Observations that do not look at the host state, or at the trace. *)
Definition host_blind {T} (f : World X → T) : Prop :=
  ∀ w x, f (mkWorld (gltf w) (render_engine w) (selected w) (active w)
              x (trace w)) = f w.

Definition trace_blind {T} (f : World X → T) : Prop :=
  ∀ w t, f (mkWorld (gltf w) (render_engine w) (selected w) (active w)
              (host w) t) = f w.

(** [tracks d m P]: from a world whose document is [d], [m] appends to
    the trace a list of calls that satisfies [P], given whether [m]
    returned normally. *)
Definition tracks {A} d (m : M X A) (P : bool → list Call → Prop) : Prop :=
  ∀ w, data (gltf w) = d →
    ∃ evs, trace (m w).1 = trace w ++ evs ∧ P (is_ok (m w).2) evs.

(** The calls of [m ≫= k]: those of [m] alone when it raises, else
    those of [m] followed by those of [k]. *)
Definition then_ (P Q : bool → list Call → Prop) : bool → list Call → Prop :=
  λ ok evs, (ok = false ∧ P false evs) ∨
            (∃ e1 e2, evs = e1 ++ e2 ∧ P true e1 ∧ Q ok e2).

Definition silent : bool → list Call → Prop := λ _ evs, evs = [].
End Judgements.


(** The sentence of the spec on a document: the code resolves what the
    stated order resolves. *)
Definition resolves_as_stated (g : Gltf) : Prop :=
  BlenderScene.resolve_vnode g = Ok (stated_resolution g).

(** The world after line 183 made the entity of [vnode] active. *)
Definition activate {X} (vnode : VNode) (w : World X) : World X :=
  mkWorld (gltf w) (render_engine w) (selected w) (blender_object vnode)
    (host w) (trace w ++ [SetActive (blender_object vnode)]).

(** ** Example documents *)

Module Examples.
(** No default scene; the first scene lists no node, the second lists
    node 1.  Nodes 0 and 1 are both roots of the graph. *)
Definition skipped_scene : Gltf :=
  mkGltf
    (mkGltfData None (Some [mkPyScene None None; mkPyScene (Some [1]) None])
       None)
    [(node 0, mkVNode Object [] None (Some 1%nat));
     (node 1, mkVNode Object [] None (Some 2%nat));
     (root, mkVNode DummyRoot [node 0; node 1] None None)]
    None None None.

(** The only scene root is a joint, so the root of the graph is the
    armature that owns it. *)
Definition root_joint : Gltf :=
  mkGltf
    (mkGltfData (Some 0) (Some [mkPyScene (Some [0]) None]) None)
    [(node 0, mkVNode Bone [] (Some root) None);
     (root, mkVNode Object [node 0] None (Some 0%nat))]
    None None None.

(** A document without nodes. *)
Definition no_nodes : Gltf :=
  mkGltf
    (mkGltfData (Some 0) (Some [mkPyScene None None]) None)
    [(root, mkVNode DummyRoot [] None None)]
    None None None.

Definition idle : Reference.State :=
  Reference.mkState "OBJECT" true [] [] None.

Definition world_of (g : Gltf) (x : Reference.State)
  : World Reference.State :=
  mkWorld g "CYCLES" ∅ None x [].
End Examples.

(** ** Selection *)

(** The materialized entities of the nodes of kind [Object], in the order
    of the graph. *)
Definition entities_of (vs : list VNode) : list obj :=
  omap (λ v, if decide (type v = Object) then blender_object v else None) vs.

Definition object_entities (g : Gltf) : list obj :=
  entities_of (dict_values (vnodes g)).

(** The sentence of the spec on a world: after the selection step the
    selected entities are exactly those of the [Object] nodes. *)
Definition selects_exactly_objects {X} `{Host X} (w : World X) : Prop :=
  ∀ o, o ∈ selected (BlenderScene.select_imported_objects w).1 ↔
       ∃ v, v ∈ dict_values (vnodes (gltf w)) ∧
            type v = Object ∧ blender_object v = Some o.

Module SelectionExamples.
(** The operator [select_all] cannot run, and entity 7 is selected. *)
Definition busy : Reference.State :=
  Reference.mkState "OBJECT" false [] [] None.

Definition preselected : World Reference.State :=
  mkWorld Examples.no_nodes "CYCLES" {[7%nat]} None busy [].

Definition two_objects : World Reference.State :=
  mkWorld
    (mkGltf (mkGltfData None None None)
       (Reference.materialize <$> Reference.two_roots_graph) None None None)
    "CYCLES" {[7%nat]} None Examples.idle [].
End SelectionExamples.

(** ** Animation layering *)

(** What a computation appends to the trace. *)
Definition emitted {X A} (m : M X A) (w : World X) : list Call :=
  drop (length (trace w)) (trace (m w).1).

(** The indices [BlenderAnimation.anim] was called with, in call order. *)
Definition anim_calls (evs : list Call) : list nat :=
  omap (λ c, match c with CallAnim i => Some i | _ => None end) evs.

(** The names [BlenderAnimation.restore_animation] was called with. *)
Definition restore_calls (evs : list Call) : list string :=
  omap (λ c, match c with CallRestoreAnimation n => Some n | _ => None end)
    evs.

(** Modelled from the spec: the host's layering primitive, which stacks a
    newly added track on top of the tracks already there.  The stack is
    listed from the top; [nla_tracks] replays the track creations of a
    trace on an empty stack. *)
Definition nla_push (stack : list nat) (c : Call) : list nat :=
  match c with
  | CallAnim i => i :: stack
  | _ => stack
  end.

Definition nla_tracks (evs : list Call) : list nat :=
  fold_left nla_push evs [].

(** The call of the animation hook made by [create_animations]. *)
Definition animation_hook {X} `{Host X} (g : Gltf)
  : X → X * result IMPORT_animation_options :=
  import_user_extensions_animations "gather_import_animations" g
    (animations (data g)) (mkOptions true).

Module AnimationExamples.
Definition three : GltfData :=
  mkGltfData None None
    (Some [mkPyAnimation "A0"; mkPyAnimation "A1"; mkPyAnimation "A2"]).

End AnimationExamples.

(** ** The calls of [create] *)






(** The calls to [import_user_extensions] with a scene, and [set_extras]. *)
Definition is_scene_call (c : Call) : bool :=
  match c with
  | CallHook _ _ | CallSetExtras _ => true
  | _ => false
  end.

(** Calls made inside one step of [create]. *)
Definition in_animations (c : Call) : Prop :=
  match c with
  | CallAnimHook _ _ | CallAnim _ | CallRestoreAnimation _ => True
  | _ => False
  end.

Definition in_mode_switch (c : Call) : Prop :=
  match c with
  | CallModeSet _ => True
  | _ => False
  end.

Definition in_selection (c : Call) : Prop :=
  match c with
  | CallSelectAll _ | CallSelectSet _ => True
  | _ => False
  end.

Definition in_activation (c : Call) : Prop :=
  match c with
  | SetActive _ => True
  | _ => False
  end.

Definition in_regrouping (c : Call) : Prop :=
  match c with
  | CallRecenter _ | CallSplitInstance _ => True
  | _ => False
  end.



Section Shapes.
Context {X : Type}.

(** [m] appends to the trace only calls that satisfy [K]. *)
Definition emits {A} (K : Call → Prop) (m : M X A) : Prop :=
  ∀ w : World X, ∃ evs, trace (m w).1 = trace w ++ evs ∧ Forall K evs.
End Shapes.

Definition only (K : Call → Prop) : bool → list Call → Prop :=
  λ _ evs, Forall K evs.

(** The calls are those of [L] up to the point of an exception, all of
    [L] on a normal return. *)
Definition exactly (L : list Call) : bool → list Call → Prop :=
  λ ok evs, evs `prefix_of` L ∧ (ok = true → evs = L).

Definition selects (sel : Call → bool) (L : list Call)
  : bool → list Call → Prop :=
  λ ok evs, exactly L ok (filter sel evs).


(** The argument of the scene hooks: the default scene, or [None]. *)
Definition gltf_scene (d : GltfData) : option PyScene :=
  i ← scene d; scene_at d i.

Definition before_hook_calls (d : GltfData) : list Call :=
  match gltf_scene d with
  | Some s => [CallHook "gather_import_scene_before_hook" (Some s);
               CallSetExtras (extras s)]
  | None => []
  end.

(** The calls of [create], step by step. *)
Definition create_shape (d : GltfData) : bool → list Call → Prop :=
  then_ silent
  (then_ silent
  (then_ (exactly (before_hook_calls d))
  (then_ (exactly [CallComputeVnodes; CallCreateVnode root])
  (then_ (exactly [CallHook "gather_import_scene_after_nodes_hook"
                     (gltf_scene d)])
  (then_ (exactly [CallCreateAnimations])
  (then_ (only in_animations)
  (then_ (exactly [CallHook "gather_import_scene_after_animation_hook"
                     (gltf_scene d)])
  (then_ (only in_mode_switch)
  (then_ (exactly [CallSelectImportedObjects])
  (then_ (only in_selection)
  (then_ (exactly [CallSetActiveObject])
  (then_ (only in_activation)
         (only in_regrouping))))))))))))).

(** The scene hooks and [set_extras] calls of one import, in order. *)
Definition scene_calls (d : GltfData) : list Call :=
  before_hook_calls d
  ++ [CallHook "gather_import_scene_after_nodes_hook" (gltf_scene d);
      CallHook "gather_import_scene_after_animation_hook" (gltf_scene d)].

(** The value lines 37-38 leave in [scene.render.engine]. *)
Definition engine_after (e : string) : string :=
  if bool_decide (e ∈ ["CYCLES"; "BLENDER_EEVEE"]) then e
  else "BLENDER_EEVEE".

Module CreateExamples.
(** Two root nodes under a scene that is not designated as default. *)
Definition no_default : GltfData :=
  mkGltfData None (Some [mkPyScene (Some [0; 1]) None]) None.

Definition editing : Reference.State :=
  Reference.mkState "EDIT" true [] Reference.two_roots_graph None.
End CreateExamples.

(** ** The selection step *)

(** The world after lines 148-149. *)
Definition deselected {X} `{Host X} (w : World X) : World X :=
  if select_all_poll (host w)
  then mkWorld (gltf w) (render_engine w) ∅ (active w) (host w)
         (trace w ++ [CallSelectAll "DESELECT"])
  else w.

(** Exactly the nodes of kind [Object] carry a host entity. *)
Definition materialized (g : Gltf) : Prop :=
  ∀ v, v ∈ dict_values (vnodes g) →
       (type v = Object ↔ is_Some (blender_object v)).

(** ** Mesh regrouping (lines 82-119 of [create]) *)

#[global] Instance exn_eq_dec : EqDecision exn.
Proof. solve_decision. Defined.

#[global] Instance result_eq_dec {A} `{EqDecision A} : EqDecision (result A).
Proof. solve_decision. Defined.

(** The objects the loop of lines 83-93 looks at: meshes whose name
    contains neither ["tiles"] nor ["type"]. *)
Definition relevant (ob : BObject) : bool :=
  String.eqb (ob_type ob) "MESH"
  && negb (contains "tiles" (ob_name ob) || contains "type" (ob_name ob)).

(** The object has the grouping key [k]. *)
Definition keyed (k : string * string * string) (ob : BObject) : bool :=
  bool_decide (BlenderScene.mesh_key ob = Ok k).

(** The object has a grouping key at all. *)
Definition well_named (ob : BObject) : bool :=
  is_ok (BlenderScene.mesh_key ob).

(** The same object under another name. *)
Definition rename (name : string) (ob : BObject) : BObject :=
  mkBObject (ob_ref ob) name (ob_type ob) (ob_parent_name ob).

(** [Some l] for a list with an element, [None] for the empty list. *)
Definition nonempty {A} (l : list A) : option (list A) :=
  match l with
  | [] => None
  | _ :: _ => Some l
  end.

(** The calls of lines 95-119 for the groups [d]: every grouped mesh is
    recentred, group by group, then every mesh but the first of its group
    is replaced by an empty. *)
Definition recenter_calls
    (d : pydict (string * string * string) (list BObject)) : list Call :=
  (λ ob, CallRecenter (ob_ref ob)) <$> concat d.*2.

Definition split_calls
    (d : pydict (string * string * string) (list BObject)) : list Call :=
  (λ ob, CallSplitInstance (ob_ref ob)) <$> concat (drop 1 <$> d.*2).

(** The entities recentred (lines 97-103) and the entities replaced by
    an empty (lines 107-119) in a trace, in call order. *)
Definition recentered (evs : list Call) : list obj :=
  omap (λ c, match c with CallRecenter o => Some o | _ => None end) evs.

Definition emptied (evs : list Call) : list obj :=
  omap (λ c, match c with CallSplitInstance o => Some o | _ => None end) evs.

Module RegroupExamples.
Definition wall_a : BObject :=
  mkBObject 1%nat "m_12_x_y_3" "MESH" (Some "p_q_wall").
Definition wall_b : BObject :=
  mkBObject 2%nat "m_12_x_y_3.001" "MESH" (Some "p_q_wall").
Definition floor : BObject :=
  mkBObject 3%nat "m_7_x_y_0" "MESH" (Some "p_q_floor").
Definition lamp : BObject :=
  mkBObject 4%nat "Light" "LIGHT" None.
Definition cube : BObject :=
  mkBObject 5%nat "Cube" "MESH" None.

Definition scene_objects : list BObject := [wall_a; lamp; floor; wall_b].

Definition with_objects (obs : list BObject) : Reference.State :=
  Reference.mkState "OBJECT" true obs [] None.
End RegroupExamples.
(** * Properties *)

(** ** Reasoning about runs *)

Section Logic.
Context {X : Type}.
Implicit Types (w : World X) (d : GltfData) (evs : list Call).

Lemma bind_run {A B} (m : M X A) (k : A → M X B) w :
  (m ≫= k) w = match m w with
               | (w', Ok a) => k a w'
               | (w', Raise e) => (w', Raise e)
               end.
Proof. reflexivity. Qed.

Lemma preserves_bind {T A B} (f : World X → T) (m : M X A) (k : A → M X B) :
  preserves f m → (∀ a, preserves f (k a)) → preserves f (m ≫= k).
Proof.
  intros Hm Hk w. rewrite bind_run. specialize (Hm w).
  destruct (m w) as [w' [a|e]]; simpl in *; [|done].
  by rewrite Hk.
Qed.

Lemma preserves_for_each {T A} (f : World X → T) (l : list A) body :
  (∀ x, preserves f (body x)) → preserves f (for_each l body).
Proof.
  intros Hb. induction l as [|x l IH]; [done|].
  simpl. by apply preserves_bind.
Qed.

Lemma preserves_run_host {T A} (f : World X → T) (h : X → X * result A) :
  host_blind f → preserves f (run_host h).
Proof.
  intros Hf w. unfold run_host. destruct (h (host w)) as [x r]. apply Hf.
Qed.

Lemma preserves_log {T} (f : World X → T) c :
  trace_blind f → preserves f (log c).
Proof. intros Hf w. apply Hf. Qed.

Lemma preserves_call {T A} (f : World X → T) c (h : X → X * result A) :
  host_blind f → trace_blind f → preserves f (call c h).
Proof.
  intros Hh Ht. apply preserves_bind.
  - by apply preserves_log.
  - intros _. by apply preserves_run_host.
Qed.

Lemma tracks_bind {A B} d (m : M X A) (k : A → M X B) P Q :
  preserves (λ w, data (gltf w)) m →
  tracks d m P → (∀ a, tracks d (k a) Q) → tracks d (m ≫= k) (then_ P Q).
Proof.
  intros Hd Hm Hk w Hw. rewrite bind_run.
  destruct (Hm w Hw) as (e1 & Ht & HP). specialize (Hd w).
  destruct (m w) as [w' [a|e]]; simpl in *.
  - destruct (Hk a w') as (e2 & Ht2 & HQ); [congruence|].
    exists (e1 ++ e2). split.
    + by rewrite Ht2, Ht, (assoc_L (++)).
    + right. by exists e1, e2.
  - exists e1. split; [done|]. by left.
Qed.

Lemma tracks_silent {A} d (m : M X A) :
  preserves trace m → tracks d m silent.
Proof. intros Hm w _. exists []. by rewrite Hm, (right_id_L [] (++)). Qed.

Lemma call_run {A} c (h : X → X * result A) w :
  call c h w =
  (mkWorld (gltf w) (render_engine w) (selected w) (active w)
     (h (host w)).1 (trace w ++ [c]), (h (host w)).2).
Proof.
  unfold call. rewrite bind_run. unfold log, run_host. simpl.
  by destruct (h (host w)).
Qed.

Lemma tracks_run {A} d (m : M X A) (P : bool → list Call → Prop) :
  (∀ w, data (gltf w) = d →
        ∃ w' r evs, m w = (w', r) ∧ trace w' = trace w ++ evs ∧
                    P (is_ok r) evs) →
  tracks d m P.
Proof.
  intros Hm w Hd. destruct (Hm w Hd) as (w' & r & evs & -> & ? & ?).
  by exists evs.
Qed.

Lemma emitted_app {A} (m : M X A) w evs :
  trace (m w).1 = trace w ++ evs → emitted m w = evs.
Proof. unfold emitted. intros ->. by rewrite drop_app_length. Qed.
End Logic.

(** ** The calls a computation can make *)

Section Emits.
Context {X : Type}.
Implicit Types (w : World X) (K : Call → Prop).

Lemma emits_bind {A B} K (m : M X A) (k : A → M X B) :
  emits K m → (∀ a, emits K (k a)) → emits K (m ≫= k).
Proof.
  intros Hm Hk w. rewrite bind_run. destruct (Hm w) as (e1 & Ht & HK).
  destruct (m w) as [w' [a|e]]; simpl in *; [|by exists e1].
  destruct (Hk a w') as (e2 & Ht2 & HK2). exists (e1 ++ e2). split.
  - by rewrite Ht2, Ht, (assoc_L (++)).
  - by apply Forall_app.
Qed.

Lemma emits_for_each {A} K (l : list A) (body : A → M X unit) :
  (∀ x, emits K (body x)) → emits K (for_each l body).
Proof.
  intros Hb. induction l as [|x l IH]; simpl.
  - intros w. exists []. by rewrite (right_id_L [] (++)).
  - by apply emits_bind.
Qed.

Lemma emits_silent {A} K (m : M X A) : preserves trace m → emits K m.
Proof. intros Hm w. exists []. by rewrite Hm, (right_id_L [] (++)). Qed.

Lemma emits_log K c : K c → emits (X:=X) K (log c).
Proof. intros HK w. exists [c]. split; [done|]. by apply Forall_singleton. Qed.

Lemma emits_call {A} K c (h : X → X * result A) : K c → emits K (call c h).
Proof.
  intros HK w. exists [c]. split; [|by apply Forall_singleton].
  unfold call. rewrite bind_run. unfold log, run_host. simpl.
  by destruct (h (host w)).
Qed.

Lemma emits_tracks {A} K d (m : M X A) : emits K m → tracks d m (only K).
Proof. intros Hm w _. apply Hm. Qed.
End Emits.

(** One step of a syntax-directed proof of [preserves] or [emits]: a
    computation without collaborator calls is run, a compound one is
    taken apart. *)
Ltac preserves_step :=
  first
    [ solve [intros ?; reflexivity]
    | lazymatch goal with
      | |- preserves _ (call _ _) =>
          apply preserves_call; solve [intros ??; reflexivity]
      | |- preserves _ (_ ≫= _) => apply preserves_bind; [|intros ?]
      | |- preserves _ (for_each _ _) => apply preserves_for_each; intros ?
      | |- preserves _ (match ?x with _ => _ end) => destruct x
      end ].

Ltac emits_step :=
  first
    [ solve [apply emits_silent; intros ?; reflexivity]
    | lazymatch goal with
      | |- emits _ (call _ _) => apply emits_call; exact I
      | |- emits _ (log _) => apply emits_log; exact I
      | |- emits _ (_ ≫= _) => apply emits_bind; [|intros ?]
      | |- emits _ (for_each _ _) => apply emits_for_each; intros ?
      | |- emits _ (match ?x with _ => _ end) => destruct x
      end ].

(** ** Composing the shapes of traces *)

Section Closure.
Implicit Types (P Q : bool → list Call → Prop) (evs L : list Call).

Lemma exactly_all L ok : exactly L ok L.
Proof. by split. Qed.

Lemma exactly_raised L evs : evs `prefix_of` L → exactly L false evs.
Proof. by split. Qed.


Lemma selects_then sel L1 L2 P Q :
  (∀ ok evs, P ok evs → selects sel L1 ok evs) →
  (∀ ok evs, Q ok evs → selects sel L2 ok evs) →
  ∀ ok evs, then_ P Q ok evs → selects sel (L1 ++ L2) ok evs.
Proof.
  intros HP HQ ok evs [[-> Hraise]|(e1 & e2 & -> & H1 & H2)].
  - destruct (HP _ _ Hraise) as [Hpre _]. split; [|done].
    by apply prefix_app_r.
  - destruct (HP _ _ H1) as [_ Hall]. destruct (HQ _ _ H2) as [Hpre Hok].
    unfold selects, exactly. rewrite filter_app, (Hall eq_refl). split.
    + by apply prefix_app.
    + intros Ht. by rewrite (Hok Ht).
Qed.

Lemma selects_silent sel ok evs : silent ok evs → selects sel [] ok evs.
Proof. intros ->. by split. Qed.

Lemma selects_exactly sel L ok evs :
  exactly L ok evs → selects sel (filter sel L) ok evs.
Proof.
  intros [[k ->] Hok]. split.
  - rewrite filter_app. by apply prefix_app_r.
  - intros Ht. by rewrite <-(Hok Ht).
Qed.

Lemma selects_only sel K ok evs :
  (∀ c, K c → sel c = false) → only K ok evs → selects sel [] ok evs.
Proof.
  intros HK Hall. unfold selects.
  assert (filter sel evs = []) as ->; [|by split].
  induction Hall as [|c evs Hc _ IH]; [done|].
  rewrite filter_cons_False; [done|]. rewrite (HK c Hc). by intros [].
Qed.










End Closure.

(** ** Python lists and dictionaries *)

Lemma py_getitem_elem {A} (l : list A) (i : Z) (a : A) :
  py_getitem l i = Ok a → a ∈ l.
Proof.
  unfold py_getitem. case_match; [|done].
  destruct (l !! _) as [b|] eqn:Hl; [|done].
  intros [= <-]. by eapply list_elem_of_lookup_2.
Qed.

Lemma dict_getitem_Some {K V} `{EqDecision K} (d : pydict K V) k v :
  dict_get k d = Some v → dict_getitem d k = Ok v.
Proof. unfold dict_getitem. by intros ->. Qed.

Lemma dict_get_elem {K V} `{EqDecision K} (d : pydict K V) k v :
  dict_get k d = Some v → v ∈ dict_values d.
Proof.
  unfold dict_values. induction d as [|[k' v'] d IH]; simpl; [done|].
  case_decide.
  - intros [= ->]. left.
  - intros Hd. right. by apply IH.
Qed.

(** ** Active-object resolution: the three rules *)

Section ResolutionFacts.
Implicit Types (g : Gltf) (s : PyScene).

Lemma has_key_lookup g id :
  has_key g id = true → ∃ v, dict_get id (vnodes g) = Some v.
Proof.
  unfold has_key. intros Hk. apply bool_decide_eq_true in Hk as [v Hv]. eauto.
Qed.

(** The first root of a scene whose nodes are all in the graph. *)
Lemma first_root_lookup g s n ns :
  scene_ok g s = true → nodes s = Some (n :: ns) →
  ∃ v, dict_get (node n) (vnodes g) = Some v ∧ first_root_of g s = Some v.
Proof.
  unfold scene_ok, first_root_of. intros Hok Hn. rewrite Hn in *. simpl in *.
  apply andb_true_iff in Hok as [Hk _].
  destruct (has_key_lookup _ _ Hk) as [v Hv]. eauto.
Qed.

Lemma first_root_of_no_nodes g s : has_nodes s = false → first_root_of g s = None.
Proof.
  unfold has_nodes, first_root_of, truthy. by destruct (nodes s) as [[|]|].
Qed.

Lemma from_default_scene_spec g :
  match scene (data g) with
  | Some i => is_Some (scene_at (data g) i)
  | None => True
  end →
  forallb (scene_ok g) (default [] (scenes (data g))) = true →
  BlenderScene.from_default_scene g = Ok (rule_a g).
Proof.
  unfold BlenderScene.from_default_scene, rule_a, scene_at.
  destruct (scene (data g)) as [i|]; [|done].
  intros [s Hs] Hall. simpl.
  destruct (BlenderScene.scenes_getitem (data g) i) as [s'|] eqn:Hget; [|done].
  simpl.
  assert (scene_ok g s' = true) as Hok.
  { unfold BlenderScene.scenes_getitem in Hget.
    destruct (scenes (data g)) as [l|]; [|done].
    apply py_getitem_elem, list_elem_of_In in Hget.
    by eapply forallb_forall in Hall. }
  destruct (nodes s') as [[|n ns]|] eqn:Hn;
    try by rewrite first_root_of_no_nodes; [|unfold has_nodes; rewrite Hn].
  destruct (first_root_lookup g s' n ns Hok Hn) as (v & Hv & ->).
  by rewrite (dict_getitem_Some _ _ _ Hv).
Qed.

Lemma from_scenes_spec g (l : list PyScene) :
  forallb (scene_ok g) l = true →
  BlenderScene.from_scenes g l = Ok (s ← List.find has_nodes l; first_root_of g s).
Proof.
  induction l as [|s l IH]; [done|].
  simpl. intros [Hok Hall]%andb_true_iff. unfold has_nodes at 1, truthy.
  destruct (nodes s) as [[|n ns]|] eqn:Hn; try by apply IH.
  destruct (first_root_lookup g s n ns Hok Hn) as (v & Hv & Hf).
  simpl. by rewrite (dict_getitem_Some _ _ _ Hv), Hf.
Qed.

Lemma from_root_spec g r :
  dict_get root (vnodes g) = Some r → type r = DummyRoot →
  forallb (has_key g) (children r) = true →
  BlenderScene.from_root g = Ok (rule_c g).
Proof.
  unfold BlenderScene.from_root, rule_c. intros Hr Ht Hc.
  rewrite (dict_getitem_Some _ _ _ Hr), Hr. simpl.
  rewrite !decide_True by done.
  destruct (children r) as [|c cs]; [done|]. simpl in *.
  apply andb_true_iff in Hc as [Hk _].
  destruct (has_key_lookup _ _ Hk) as [v Hv].
  by rewrite (dict_getitem_Some _ _ _ Hv), Hv.
Qed.
End ResolutionFacts.

(** ** [set_active_object] *)

Section SetActiveObject.
Context {X : Type} `{Host X}.
Implicit Types (w : World X) (g : Gltf).

(** The method is the resolution of lines 160-178, the substitution of
    lines 180-181 and the assignment of line 183. *)
Lemma set_active_object_run w :
  BlenderScene.set_active_object w =
  match BlenderScene.resolve_vnode (gltf w) with
  | Ok None => (w, Ok tt)
  | Ok (Some v) =>
      match BlenderScene.armature_of_bone (gltf w) v with
      | Ok v' => (activate v' w, Ok tt)
      | Raise e => (w, Raise e)
      end
  | Raise e => (w, Raise e)
  end.
Proof.
  unfold BlenderScene.set_active_object.
  rewrite bind_run. simpl. rewrite bind_run. unfold lift at 1.
  by destruct (BlenderScene.resolve_vnode (gltf w)) as [[v|]|e].
Qed.

Lemma resolve_vnode_amended g :
  wf_gltf g = true → BlenderScene.resolve_vnode g = Ok (amended_resolution g).
Proof.
  unfold wf_gltf. intros [[Hs Hall]%andb_true_iff Hroot]%andb_true_iff.
  destruct (dict_get root (vnodes g)) as [r|] eqn:Hr; [|done].
  apply andb_true_iff in Hroot as [Ht%bool_decide_eq_true Hc].
  unfold BlenderScene.resolve_vnode, amended_resolution.
  rewrite from_default_scene_spec; [|by destruct (scene (data g));
    [apply bool_decide_eq_true in Hs|] |done].
  simpl. destruct (rule_a g) as [v|]; [done|]. simpl.
  rewrite from_scenes_spec by done. simpl.
  destruct (_ ≫= _) as [v|]; [done|]. simpl.
  by eapply from_root_spec.
Qed.
End SetActiveObject.

(** C2, as amended.  On a document whose references all resolve, the
    node of lines 160-178 is: (a) the first root node of the designated
    default scene; (b) else the first root node of the first scene, in
    declaration order, that lists a root node; (c) else the first child of
    the [DummyRoot]; (d) else none.  [set_active_object] makes its entity
    active, after the bone substitution, and sets nothing in case (d). *)
Theorem set_active_object_priority {X} `{Host X} (w : World X) :
  wf_gltf (gltf w) = true →
  BlenderScene.resolve_vnode (gltf w) = Ok (amended_resolution (gltf w)) ∧
  BlenderScene.set_active_object w =
    match amended_resolution (gltf w) with
    | None => (w, Ok tt)
    | Some v =>
        match BlenderScene.armature_of_bone (gltf w) v with
        | Ok v' => (activate v' w, Ok tt)
        | Raise e => (w, Raise e)
        end
    end.
Proof.
  intros Hwf. rewrite set_active_object_run.
  by rewrite (resolve_vnode_amended _ Hwf).
Qed.

Lemma set_active_object_priority_witness :
  let w := Examples.world_of Examples.skipped_scene Examples.idle in
  wf_gltf (gltf w) = true ∧
  BlenderScene.resolve_vnode (gltf w) = Ok (amended_resolution (gltf w)) ∧
  active (BlenderScene.set_active_object w).1 = Some 2%nat.
Proof.
  intros w. split; [reflexivity|].
  destruct (set_active_object_priority w eq_refl) as [Hres Hrun].
  split; [exact Hres|]. rewrite Hrun. reflexivity.
Defined.

(** C2, as stated, fails when the first scene lists no node and a later
    one does: the code takes the root of the later scene, the stated
    order falls through to the first child of the [DummyRoot]. *)
Lemma resolution_skips_empty_scenes :
  ¬ resolves_as_stated Examples.skipped_scene.
Proof. unfold resolves_as_stated. vm_compute. intros [=]. Qed.

(** C5.  When the resolution of lines 160-178 yields a [Bone], the node
    made active is the one its [bone_arma] names, the [Object] that owns
    the armature, and not the bone. *)
Theorem bone_yields_armature {X} `{Host X} (w : World X)
    (v va : VNode) (arma : vnode_id) :
  BlenderScene.resolve_vnode (gltf w) = Ok (Some v) →
  type v = Bone →
  bone_arma v = Some arma →
  dict_get arma (vnodes (gltf w)) = Some va →
  type va = Object →
  BlenderScene.set_active_object w = (activate va w, Ok tt) ∧
  active (BlenderScene.set_active_object w).1 = blender_object va ∧
  va ≠ v.
Proof.
  intros Hres Hbone Harma Hva Hobj.
  assert (BlenderScene.set_active_object w = (activate va w, Ok tt)) as Hrun.
  { rewrite set_active_object_run, Hres.
    unfold BlenderScene.armature_of_bone.
    rewrite decide_True, Harma by done.
    by rewrite (dict_getitem_Some _ _ _ Hva). }
  split; [done|]. split; [by rewrite Hrun|].
  intros ->. congruence.
Qed.

Lemma bone_yields_armature_witness :
  let w := Examples.world_of Examples.root_joint Examples.idle in
  active (BlenderScene.set_active_object w).1 = Some 0%nat.
Proof.
  intros w.
  exact (proj1 (proj2 (bone_yields_armature w
    (mkVNode Bone [] (Some root) None)
    (mkVNode Object [node 0] None (Some 0%nat)) root
    eq_refl eq_refl eq_refl eq_refl eq_refl))).
Defined.

Section NoNodes.
Implicit Types (g : Gltf).

Lemma from_scenes_no_nodes g (l : list PyScene) :
  (∀ s, s ∈ l → has_nodes s = false) → BlenderScene.from_scenes g l = Ok None.
Proof.
  induction l as [|s l IH]; intros Hl; [done|]. simpl.
  assert (has_nodes s = false) as Hs by (apply Hl; left).
  unfold has_nodes, truthy in Hs.
  destruct (nodes s) as [[|]|]; try done; apply IH; intros; apply Hl; by right.
Qed.

Lemma from_default_scene_no_nodes g :
  (∀ i, scene (data g) = Some i → is_Some (scene_at (data g) i)) →
  (∀ s, s ∈ default [] (scenes (data g)) → has_nodes s = false) →
  BlenderScene.from_default_scene g = Ok None.
Proof.
  unfold BlenderScene.from_default_scene, scene_at. intros Hi Hl.
  destruct (scene (data g)) as [i|]; [|done].
  destruct (Hi i eq_refl) as [s Hs].
  destruct (BlenderScene.scenes_getitem (data g) i) as [s'|] eqn:Hget; [|done].
  simpl. assert (has_nodes s' = false) as Hn.
  { apply Hl. unfold BlenderScene.scenes_getitem in Hget.
    destruct (scenes (data g)); [|done]. by eapply py_getitem_elem. }
  unfold has_nodes, truthy in Hn. by destruct (nodes s') as [[|]|].
Qed.
End NoNodes.

(** C8.  On a document with zero nodes (no scene lists a node, the
    [DummyRoot] has no child) [set_active_object] returns normally and
    leaves the world as it found it: no active object is set. *)
Theorem no_nodes_no_active {X} `{Host X} (w : World X) (r : VNode) :
  (∀ i, scene (data (gltf w)) = Some i →
        is_Some (scene_at (data (gltf w)) i)) →
  (∀ s, s ∈ default [] (scenes (data (gltf w))) → has_nodes s = false) →
  dict_get root (vnodes (gltf w)) = Some r →
  type r = DummyRoot →
  children r = [] →
  BlenderScene.set_active_object w = (w, Ok tt).
Proof.
  intros Hi Hl Hr Ht Hc. rewrite set_active_object_run.
  unfold BlenderScene.resolve_vnode.
  rewrite from_default_scene_no_nodes by done. simpl.
  rewrite from_scenes_no_nodes by done. simpl.
  unfold BlenderScene.from_root.
  rewrite (dict_getitem_Some _ _ _ Hr). simpl.
  by rewrite decide_True, Hc.
Qed.

Lemma no_nodes_no_active_witness :
  let w := Examples.world_of Examples.no_nodes Examples.idle in
  BlenderScene.set_active_object w = (w, Ok tt).
Proof.
  intros w.
  apply (no_nodes_no_active w (mkVNode DummyRoot [] None None)).
  - intros i [= <-]. by eexists.
  - intros s Hs. apply list_elem_of_singleton in Hs as ->. reflexivity.
  - reflexivity.
  - reflexivity.
  - reflexivity.
Defined.

(** ** [select_imported_objects] *)

Section Selection.
Context {X : Type} `{Host X}.
Implicit Types (w : World X) (g : Gltf) (vs : list VNode).

Lemma elem_of_object_entities g o :
  o ∈ object_entities g ↔
  ∃ v, v ∈ dict_values (vnodes g) ∧ type v = Object ∧ blender_object v = Some o.
Proof.
  unfold object_entities, entities_of. rewrite list_elem_of_omap.
  split; intros (v & Hv & Ho); exists v.
  - by case_decide.
  - destruct Ho as [Ht Ho]. by rewrite decide_True.
Qed.

(** The loop of lines 151-153 over materialized nodes. *)
Lemma select_loop vs w :
  (∀ v, v ∈ vs → type v = Object → is_Some (blender_object v)) →
  ∃ w', for_each vs BlenderScene.select_if_object w = (w', Ok tt) ∧
        gltf w' = gltf w ∧ render_engine w' = render_engine w ∧
        active w' = active w ∧ host w' = host w ∧
        trace w' = trace w ++ (CallSelectSet <$> entities_of vs) ∧
        selected w' = list_to_set (entities_of vs) ∪ selected w.
Proof.
  revert w. induction vs as [|v vs IH]; intros w Hm.
  - exists w. simpl. rewrite (right_id_L [] (++)).
    repeat split; try done. set_solver.
  - simpl for_each. rewrite bind_run. unfold BlenderScene.select_if_object at 1.
    assert (∀ v', v' ∈ vs → type v' = Object → is_Some (blender_object v'))
      as Hm' by (intros; apply Hm; [by right|done]).
    unfold entities_of. simpl omap. fold (entities_of vs).
    case_decide as Ht.
    + destruct (Hm v) as [o Ho]; [left|done|].
      unfold BlenderScene.select_set. rewrite Ho. simpl.
      destruct (IH (mkWorld (gltf w) (render_engine w) ({[o]} ∪ selected w)
                      (active w) (host w) (trace w ++ [CallSelectSet o])) Hm')
        as (w' & Hrun & ? & ? & ? & ? & Htr & Hsel).
      exists w'. split; [exact Hrun|]. simpl in *.
      repeat split; try done.
      * by rewrite Htr, <-(assoc_L (++)).
      * rewrite Hsel. set_solver.
    + simpl. destruct (IH w Hm') as (w' & Hrun & ? & ? & ? & ? & Htr & Hsel).
      by exists w'.
Qed.
End Selection.

(** X20.  What lines 148-153 do on every host.  When every [Object] node
    is materialized, the selection step returns normally; it runs the
    operator [select_all] exactly if its [poll] allows it, and then calls
    [select_set] on the entity of each node of kind [Object], in graph
    order, and on nothing else.  Afterwards an entity is selected exactly
    when it belongs to an [Object] node, or when [poll] refused and it
    was selected before. *)
Theorem select_imported_objects_selection {X} `{Host X} (w : World X) :
  (∀ v, v ∈ dict_values (vnodes (gltf w)) → type v = Object →
        is_Some (blender_object v)) →
  let w' := (BlenderScene.select_imported_objects w).1 in
  (BlenderScene.select_imported_objects w).2 = Ok tt ∧
  trace w' = trace w
             ++ (if select_all_poll (host w)
                 then [CallSelectAll "DESELECT"] else [])
             ++ (CallSelectSet <$> object_entities (gltf w)) ∧
  (∀ o, o ∈ selected w' ↔
        (select_all_poll (host w) = false ∧ o ∈ selected w) ∨
        ∃ v, v ∈ dict_values (vnodes (gltf w)) ∧
             type v = Object ∧ blender_object v = Some o).
Proof.
  intros Hm. unfold BlenderScene.select_imported_objects.
  rewrite bind_run. simpl. rewrite bind_run.
  destruct (select_all_poll (host w)) eqn:Hpoll; simpl.
  - destruct (select_loop (dict_values (vnodes (gltf w)))
        (mkWorld (gltf w) (render_engine w) ∅ (active w) (host w)
           (trace w ++ [CallSelectAll "DESELECT"])) Hm)
      as (w' & -> & _ & _ & _ & _ & Htr & Hsel).
    simpl in *. split; [done|]. split.
    + by rewrite Htr, <-(assoc_L (++)).
    + intros o. rewrite Hsel, <-elem_of_object_entities.
      unfold object_entities, entities_of. set_solver.
  - destruct (select_loop (dict_values (vnodes (gltf w))) w Hm)
      as (w' & -> & _ & _ & _ & _ & Htr & Hsel).
    simpl. split; [done|]. split; [done|].
    intros o. rewrite Hsel, <-elem_of_object_entities.
    unfold object_entities, entities_of. set_solver.
Qed.

Lemma select_imported_objects_selection_witness :
  let w := SelectionExamples.two_objects in
  trace (BlenderScene.select_imported_objects w).1 =
    [CallSelectAll "DESELECT"; CallSelectSet 1%nat; CallSelectSet 2%nat].
Proof.
  intros w.
  assert (∀ v, v ∈ dict_values (vnodes (gltf w)) → type v = Object →
               is_Some (blender_object v)) as Hm.
  { intros v Hv Ht. vm_compute in Hv.
    repeat (apply elem_of_cons in Hv as [->|Hv];
            [first [discriminate Ht | by eexists]|]).
    by apply elem_of_nil in Hv. }
  exact (proj1 (proj2 (select_imported_objects_selection w Hm))).
Defined.

(** C4.  The selection step evaluated on a host where the operator
    [select_all] cannot run ([poll] is false), entity 7 is selected and
    the graph is the [DummyRoot] alone.  The step returns normally and
    calls nothing: line 148 skips the clearing, so entity 7 is still
    selected although no [Object] node owns it.  The selection is not
    the imported objects and only them, as the claim and the docstring
    of the method (line 147) have it. *)
Lemma selection_not_cleared_without_poll :
  let w := SelectionExamples.preselected in
  select_all_poll (host w) = false ∧
  object_entities (gltf w) = [] ∧
  (BlenderScene.select_imported_objects w).2 = Ok tt ∧
  emitted BlenderScene.select_imported_objects w = [] ∧
  7%nat ∈ selected (BlenderScene.select_imported_objects w).1 ∧
  ¬ selects_exactly_objects w.
Proof.
  intros w. split; [reflexivity|]. split; [reflexivity|].
  split; [reflexivity|]. split; [reflexivity|].
  split; [by vm_compute|].
  intros Hc. destruct (proj1 (Hc 7%nat)) as (v & Hv & Ht & _).
  - vm_compute. reflexivity.
  - vm_compute in Hv. apply elem_of_cons in Hv as [->|Hv].
    + discriminate Ht.
    + by apply elem_of_nil in Hv.
Qed.

(** ** [create_animations] *)

Section Animations.
Context {X : Type} `{Host X}.
Implicit Types (w : World X) (g : Gltf) (evs : list Call).

Lemma anim_calls_app evs1 evs2 :
  anim_calls (evs1 ++ evs2) = anim_calls evs1 ++ anim_calls evs2.
Proof. apply omap_app. Qed.

Lemma anim_calls_anims (l : list nat) : anim_calls (CallAnim <$> l) = l.
Proof. induction l as [|i l IH]; [done|]. simpl. by f_equal. Qed.

Lemma restore_calls_anims (l : list nat) : restore_calls (CallAnim <$> l) = [].
Proof. induction l as [|i l IH]; [done|]. exact IH. Qed.

Lemma restore_calls_app evs1 evs2 :
  restore_calls (evs1 ++ evs2) = restore_calls evs1 ++ restore_calls evs2.
Proof. apply omap_app. Qed.

(** Each new track goes on top: the stack is the reversed call order. *)
Lemma nla_tracks_rev evs : nla_tracks evs = rev (anim_calls evs).
Proof.
  unfold nla_tracks. rewrite <-(app_nil_r (rev _)). generalize (@nil nat).
  induction evs as [|c evs IH]; intros st; [done|].
  simpl. rewrite IH. destruct c; simpl; try done.
  by rewrite <-(assoc_L (++)).
Qed.

(** The loop of lines 137-138 on any host: the calls made are an initial
    part of the list of indices, the whole list on a normal return. *)
Lemma anim_loop_any g (l : list nat) w :
  ∃ w' r k,
    for_each l (λ anim_idx, call (CallAnim anim_idx) (anim g anim_idx)) w
    = (w', r) ∧
    trace w' = trace w ++ (CallAnim <$> take k l) ∧
    (is_ok r = true → take k l = l).
Proof.
  revert w. induction l as [|i l IH]; intros w.
  - exists w, (Ok tt), 0%nat. simpl. by rewrite (right_id_L [] (++)).
  - simpl for_each. rewrite bind_run, call_run.
    destruct (anim g i (host w)) as [x1 [[]|e]]; simpl.
    + destruct (IH (mkWorld (gltf w) (render_engine w) (selected w)
                      (active w) x1 (trace w ++ [CallAnim i])))
        as (w' & r & k & -> & Ht & Hk).
      exists w', r, (S k). split; [done|]. simpl in *. split.
      * by rewrite Ht, <-(assoc_L (++)).
      * intros Hr. by rewrite (Hk Hr).
    + by eexists _, _, 1%nat.
Qed.

(** The same loop when [anim] does not raise. *)
Lemma anim_loop g (l : list nat) w :
  (∀ i, never_raises (anim g i)) →
  ∃ x', for_each l (λ anim_idx, call (CallAnim anim_idx) (anim g anim_idx)) w
        = (mkWorld (gltf w) (render_engine w) (selected w) (active w) x'
             (trace w ++ (CallAnim <$> l)), Ok tt).
Proof.
  intros Hanim. revert w. induction l as [|i l IH]; intros w.
  - exists (host w). simpl. rewrite (right_id_L [] (++)). by destruct w.
  - simpl for_each. rewrite bind_run, call_run.
    destruct (Hanim i (host w)) as [[] Hi]. rewrite Hi.
    destruct (IH (mkWorld (gltf w) (render_engine w) (selected w) (active w)
                    (anim g i (host w)).1 (trace w ++ [CallAnim i])))
      as [x' ->].
    exists x'. simpl. by rewrite <-(assoc_L (++)).
Qed.

(** The calls of [create_animations] on a document with at least one
    animation, on any host: the hook, then [anim] on an initial part of
    [N-1, ..., 0], then possibly the restore step; the restore step comes
    only after all the tracks, and only if the hook left the flag true. *)
Lemma create_animations_any_run w first rest :
  animations (data (gltf w)) = Some (first :: rest) →
  ∃ k tail,
    emitted BlenderScene.create_animations w =
      [CallAnimHook "gather_import_animations" (mkOptions true)]
      ++ (CallAnim <$> take k (rev (seq 0 (S (length rest))))) ++ tail ∧
    (tail = [] ∨
     tail = [CallRestoreAnimation (track_name first)] ∧
     take k (rev (seq 0 (S (length rest)))) = rev (seq 0 (S (length rest))) ∧
     ∃ opts, (animation_hook (gltf w) (host w)).2 = Ok opts ∧
             restore_first_anim opts = true).
Proof.
  intros Hanims.
  assert (∃ k tail,
    trace (BlenderScene.create_animations w).1 =
      trace w ++ [CallAnimHook "gather_import_animations" (mkOptions true)]
      ++ (CallAnim <$> take k (rev (seq 0 (S (length rest))))) ++ tail ∧
    (tail = [] ∨
     tail = [CallRestoreAnimation (track_name first)] ∧
     take k (rev (seq 0 (S (length rest)))) = rev (seq 0 (S (length rest))) ∧
     ∃ opts, (animation_hook (gltf w) (host w)).2 = Ok opts ∧
             restore_first_anim opts = true))
    as (k & tail & Ht & Htail);
    [|exists k, tail; split; [by apply emitted_app|done]].
  unfold BlenderScene.create_animations, animation_hook.
  rewrite bind_run. simpl. rewrite bind_run, call_run.
  destruct (import_user_extensions_animations _ _ _ _ (host w))
    as [x1 [opts|e]]; simpl; [|exists 0%nat, []; by split; [|left]].
  rewrite Hanims, bind_run.
  destruct (anim_loop_any (gltf w) (rev (seq 0 (length (first :: rest))))
              (mkWorld (gltf w) (render_engine w) (selected w) (active w) x1
                 (trace w ++ [CallAnimHook "gather_import_animations"
                                (mkOptions true)])))
    as (w2 & r & k & -> & Hk & Hall).
  simpl in Hk, Hall. destruct r as [[]|e]; simpl.
  - destruct (restore_first_anim opts) eqn:Hflag.
    + rewrite call_run. simpl. rewrite Hk.
      exists k, [CallRestoreAnimation (track_name first)].
      split; [by rewrite <-!(assoc_L (++))|]. right.
      split; [done|]. split; [by apply Hall|]. by exists opts.
    + simpl. rewrite Hk. exists k, [].
      split; [by rewrite <-!(assoc_L (++)), (right_id_L [] (++))|by left].
  - rewrite Hk. exists k, [].
    split; [by rewrite <-!(assoc_L (++)), (right_id_L [] (++))|by left].
Qed.

(** The calls of [create_animations] on a document with at least one
    animation, when the hook returns [opts] and [anim] does not raise. *)
Lemma create_animations_trace w first rest opts :
  animations (data (gltf w)) = Some (first :: rest) →
  (animation_hook (gltf w) (host w)).2 = Ok opts →
  (∀ i, never_raises (anim (gltf w) i)) →
  emitted BlenderScene.create_animations w =
    [CallAnimHook "gather_import_animations" (mkOptions true)]
    ++ (CallAnim <$> rev (seq 0 (S (length rest))))
    ++ (if restore_first_anim opts
        then [CallRestoreAnimation (track_name first)] else []).
Proof.
  intros Hanims Hhook Hanim. apply emitted_app.
  unfold BlenderScene.create_animations. rewrite bind_run. simpl.
  rewrite bind_run, call_run.
  unfold animation_hook in Hhook. rewrite Hhook, Hanims, bind_run.
  destruct (anim_loop (gltf w) (rev (seq 0 (length (first :: rest))))
              (mkWorld (gltf w) (render_engine w) (selected w) (active w)
                 (import_user_extensions_animations "gather_import_animations"
                    (gltf w) (animations (data (gltf w))) (mkOptions true)
                    (host w)).1
                 (trace w ++ [CallAnimHook "gather_import_animations"
                                (mkOptions true)])) Hanim) as [x2 Hloop].
  simpl gltf in Hloop. rewrite Hanims in Hloop. rewrite Hloop. simpl trace.
  destruct (restore_first_anim opts).
  - rewrite call_run. simpl. by rewrite <-!(assoc_L (++)).
  - simpl. by rewrite <-!(assoc_L (++)), (right_id_L [] (++)).
Qed.

(** Without animations only the hook is called: no track is created and
    nothing is restored, whatever the flag. *)
Lemma create_animations_without_animations w :
  truthy (animations (data (gltf w))) = false →
  emitted BlenderScene.create_animations w =
    [CallAnimHook "gather_import_animations" (mkOptions true)].
Proof.
  intros Hnone. apply emitted_app.
  unfold BlenderScene.create_animations. rewrite bind_run. simpl.
  rewrite bind_run, call_run.
  destruct (import_user_extensions_animations _ _ _ _ (host w))
    as [x1 [opts|e]]; simpl; [|done].
  by destruct (animations (data (gltf w))) as [[|]|].
Qed.

(** The calls and the result of [create_animations] on a document with
    at least one animation, on any host.  Either the run raises before
    the restore step, after the hook and an initial part of the [anim]
    calls; or all the tracks are created and the restore step follows
    exactly if the hook left the flag true, the run returning normally
    if it does not follow. *)
Lemma create_animations_outcome w first rest :
  animations (data (gltf w)) = Some (first :: rest) →
  ∃ k tail,
    emitted BlenderScene.create_animations w =
      [CallAnimHook "gather_import_animations" (mkOptions true)]
      ++ (CallAnim <$> take k (rev (seq 0 (S (length rest))))) ++ tail ∧
    ((tail = [] ∧ is_ok (BlenderScene.create_animations w).2 = false) ∨
     (take k (rev (seq 0 (S (length rest)))) = rev (seq 0 (S (length rest))) ∧
      ∃ opts, (animation_hook (gltf w) (host w)).2 = Ok opts ∧
              tail = (if restore_first_anim opts
                      then [CallRestoreAnimation (track_name first)]
                      else []) ∧
              (restore_first_anim opts = false →
               (BlenderScene.create_animations w).2 = Ok tt))).
Proof.
  intros Hanims.
  assert (∃ w' r k tail,
    BlenderScene.create_animations w = (w', r) ∧
    trace w' =
      trace w ++ [CallAnimHook "gather_import_animations" (mkOptions true)]
      ++ (CallAnim <$> take k (rev (seq 0 (S (length rest))))) ++ tail ∧
    ((tail = [] ∧ is_ok r = false) ∨
     (take k (rev (seq 0 (S (length rest)))) = rev (seq 0 (S (length rest))) ∧
      ∃ opts, (animation_hook (gltf w) (host w)).2 = Ok opts ∧
              tail = (if restore_first_anim opts
                      then [CallRestoreAnimation (track_name first)]
                      else []) ∧
              (restore_first_anim opts = false → r = Ok tt))))
    as (w' & r & k & tail & Hrun & Ht & Hcases).
  { unfold BlenderScene.create_animations, animation_hook.
    rewrite bind_run. simpl. rewrite bind_run, call_run.
    destruct (import_user_extensions_animations _ _ _ _ (host w))
      as [x1 [opts|e]]; simpl;
      [|eexists _, _, 0%nat, []; split; [done|]; split; [done|by left]].
    rewrite Hanims, bind_run.
    destruct (anim_loop_any (gltf w) (rev (seq 0 (length (first :: rest))))
                (mkWorld (gltf w) (render_engine w) (selected w) (active w) x1
                   (trace w ++ [CallAnimHook "gather_import_animations"
                                  (mkOptions true)])))
      as (w2 & r & k & -> & Hk & Hall).
    simpl in Hk, Hall. destruct r as [[]|e]; simpl.
    - destruct (restore_first_anim opts) eqn:Hflag.
      + rewrite call_run.
        eexists _, _, k, [CallRestoreAnimation (track_name first)].
        split; [done|]. simpl. rewrite Hk.
        split; [by rewrite <-!(assoc_L (++))|]. right.
        split; [by apply Hall|]. exists opts. by rewrite Hflag.
      + eexists _, _, k, []. split; [done|]. rewrite Hk.
        split; [by rewrite <-!(assoc_L (++)), (right_id_L [] (++))|]. right.
        split; [by apply Hall|]. exists opts. by rewrite Hflag.
    - eexists _, _, k, []. split; [done|]. rewrite Hk.
      split; [by rewrite <-!(assoc_L (++)), (right_id_L [] (++))|by left]. }
  exists k, tail. rewrite Hrun. split; [|done].
  apply emitted_app. by rewrite Hrun.
Qed.

(** The calls of a run that returns normally. *)
Lemma create_animations_normal_run w first rest opts :
  animations (data (gltf w)) = Some (first :: rest) →
  (animation_hook (gltf w) (host w)).2 = Ok opts →
  (BlenderScene.create_animations w).2 = Ok tt →
  emitted BlenderScene.create_animations w =
    [CallAnimHook "gather_import_animations" (mkOptions true)]
    ++ (CallAnim <$> rev (seq 0 (S (length rest))))
    ++ (if restore_first_anim opts
        then [CallRestoreAnimation (track_name first)] else []).
Proof.
  intros Hanims Hhook Hok.
  destruct (create_animations_outcome w first rest Hanims)
    as (k & tail & -> & [[_ Hraised]|(-> & opts' & Hhook' & -> & _)]).
  - by rewrite Hok in Hraised.
  - rewrite Hhook in Hhook'. by injection Hhook' as <-.
Qed.

(** The hook is called first, with the default options, on every run. *)
Lemma hook_called_first w :
  head (emitted BlenderScene.create_animations w) =
    Some (CallAnimHook "gather_import_animations" (mkOptions true)).
Proof.
  destruct (truthy (animations (data (gltf w)))) eqn:Hanims.
  - destruct (animations (data (gltf w))) as [[|first rest]|] eqn:Ha;
      try done.
    by destruct (create_animations_any_run w first rest Ha)
      as (k & tail & -> & _).
  - by rewrite create_animations_without_animations.
Qed.
End Animations.

(** C1.  On a document with [N > 0] animations [create_animations]
    calls [BlenderAnimation.anim] in the order [N-1, ..., 1, 0]: on every
    run the calls made are an initial part of that list, and when the
    run returns normally, or gets as far as the restore step, there is
    one call per index.  Track 0 is then created last and, each new
    track going on top of the stack, ends up topmost, the stack reading
    [0, 1, ..., N-1] from the top. *)
Theorem animations_created_in_reverse {X} `{Host X} (w : World X)
    (first : PyAnimation) (rest : list PyAnimation) :
  animations (data (gltf w)) = Some (first :: rest) →
  let N := S (length rest) in
  let evs := emitted BlenderScene.create_animations w in
  anim_calls evs `prefix_of` rev (seq 0 N) ∧
  ((BlenderScene.create_animations w).2 = Ok tt ∨ restore_calls evs ≠ [] →
   anim_calls evs = rev (seq 0 N) ∧
   last (anim_calls evs) = Some 0%nat ∧
   nla_tracks evs = seq 0 N ∧
   head (nla_tracks evs) = Some 0%nat).
Proof.
  intros Hanims N evs.
  destruct (create_animations_outcome w first rest Hanims)
    as (k & tail & Hevs & Hcases).
  fold evs in Hevs.
  assert (anim_calls tail = []) as Htail.
  { destruct Hcases as [[-> _]|(_ & opts & _ & -> & _)]; [done|].
    by destruct (restore_first_anim opts). }
  assert (anim_calls evs = take k (rev (seq 0 N))) as Hcalls.
  { rewrite Hevs, !anim_calls_app, anim_calls_anims, Htail. simpl.
    by rewrite (right_id_L [] (++)). }
  split; [rewrite Hcalls; apply prefix_take|].
  intros Hdone.
  assert (take k (rev (seq 0 N)) = rev (seq 0 N)) as Hall.
  { destruct Hcases as [[-> Hraised]|(Hk & _)]; [|done].
    destruct Hdone as [Hok|Hrestore].
    - by rewrite Hok in Hraised.
    - exfalso. apply Hrestore.
      rewrite Hevs, !restore_calls_app, restore_calls_anims. done. }
  rewrite Hall in Hcalls.
  assert (nla_tracks evs = seq 0 N) as Hnla
    by (by rewrite nla_tracks_rev, Hcalls, rev_involutive).
  split; [done|]. split; [|split; [done|]].
  - rewrite Hcalls. unfold N. simpl seq. simpl rev. by rewrite last_snoc.
  - by rewrite Hnla.
Qed.

Lemma animations_created_in_reverse_witness :
  let w := Reference.world AnimationExamples.three Examples.idle in
  let evs := emitted BlenderScene.create_animations w in
  anim_calls evs = [2; 1; 0]%nat ∧ nla_tracks evs = [0; 1; 2]%nat.
Proof.
  intros w evs.
  destruct (animations_created_in_reverse w (mkPyAnimation "A0")
              [mkPyAnimation "A1"; mkPyAnimation "A2"] eq_refl)
    as [_ Hall].
  destruct Hall as (Hcalls & _ & Hnla & _); [left; reflexivity|].
  split; [exact Hcalls | exact Hnla].
Defined.

(** C3.  On a document with at least one animation [create_animations]
    calls [restore_animation] only after all the [anim] calls, with the
    track name of the animation declared first, and only if
    [restore_first_anim] is true at that point; a run that returns
    normally calls it if and only if the flag is true. *)
Theorem restore_iff_option {X} `{Host X} (w : World X)
    (first : PyAnimation) (rest : list PyAnimation) :
  animations (data (gltf w)) = Some (first :: rest) →
  let N := S (length rest) in
  let evs := emitted BlenderScene.create_animations w in
  (restore_calls evs = [] ∨
   restore_calls evs = [track_name first] ∧
   last evs = Some (CallRestoreAnimation (track_name first)) ∧
   anim_calls evs = rev (seq 0 N) ∧
   ∃ opts, (animation_hook (gltf w) (host w)).2 = Ok opts ∧
           restore_first_anim opts = true) ∧
  (∀ opts, (animation_hook (gltf w) (host w)).2 = Ok opts →
           (BlenderScene.create_animations w).2 = Ok tt →
           evs = [CallAnimHook "gather_import_animations" (mkOptions true)]
                 ++ (CallAnim <$> rev (seq 0 N))
                 ++ (if restore_first_anim opts
                     then [CallRestoreAnimation (track_name first)] else []) ∧
           restore_calls evs =
             if restore_first_anim opts then [track_name first] else []).
Proof.
  intros Hanims N evs. split.
  - destruct (create_animations_any_run w first rest Hanims)
      as (k & tail & Hevs & [->|(-> & Hk & Hopts)]); unfold evs; rewrite Hevs.
    + left. by rewrite !restore_calls_app, restore_calls_anims.
    + right. split; [by rewrite !restore_calls_app, restore_calls_anims|].
      split; [by rewrite !(assoc_L (++)), last_snoc|].
      split; [|done].
      rewrite !anim_calls_app, anim_calls_anims, Hk. simpl.
      by rewrite (right_id_L [] (++)).
  - intros opts Hhook Hok. unfold evs.
    rewrite (create_animations_normal_run w first rest opts) by done.
    split; [done|]. rewrite !restore_calls_app, restore_calls_anims.
    by destruct (restore_first_anim opts).
Qed.

Lemma restore_iff_option_witness :
  let w := Reference.world AnimationExamples.three Examples.idle in
  restore_calls (emitted BlenderScene.create_animations w) = ["A0"].
Proof.
  intros w.
  destruct (restore_iff_option w (mkPyAnimation "A0")
              [mkPyAnimation "A1"; mkPyAnimation "A2"] eq_refl)
    as [_ Hall].
  refine (proj2 (Hall (mkOptions true) _ _)); reflexivity.
Defined.



(** ** What each step of [create] calls *)

Section Steps.
Context {X : Type} `{Host X}.
Implicit Types (w : World X) (d : GltfData).

Lemma create_animations_emits :
  emits in_animations (BlenderScene.create_animations (X:=X)).
Proof. unfold BlenderScene.create_animations. repeat emits_step. Qed.

Lemma ensure_object_mode_emits :
  emits in_mode_switch (BlenderScene.ensure_object_mode (X:=X)).
Proof. unfold BlenderScene.ensure_object_mode. repeat emits_step. Qed.

Lemma select_imported_objects_emits :
  emits in_selection (BlenderScene.select_imported_objects (X:=X)).
Proof.
  unfold BlenderScene.select_imported_objects, BlenderScene.select_if_object,
    BlenderScene.select_set.
  repeat emits_step.
Qed.

Lemma set_active_object_emits :
  emits in_activation (BlenderScene.set_active_object (X:=X)).
Proof. unfold BlenderScene.set_active_object. repeat emits_step. Qed.

Lemma regroup_meshes_emits :
  emits in_regrouping (BlenderScene.regroup_meshes (X:=X)).
Proof. unfold BlenderScene.regroup_meshes. repeat emits_step. Qed.
End Steps.

Section StepsOfCreate.
Context {X : Type} `{Host X}.
Implicit Types (w : World X) (d : GltfData).

Lemma before_hook_tracks d :
  tracks d (BlenderScene.before_hook (X:=X)) (exactly (before_hook_calls d)).
Proof.
  apply tracks_run. intros w <-.
  unfold BlenderScene.before_hook, before_hook_calls, gltf_scene, scene_at.
  rewrite bind_run. simpl.
  destruct (scene (data (gltf w))) as [i|]; simpl.
  - rewrite bind_run. unfold lift at 1.
    destruct (BlenderScene.scenes_getitem (data (gltf w)) i) as [s|e] eqn:Hs.
    + rewrite bind_run, call_run.
      destruct (import_user_extensions _ _ _ (host w)) as [x1 [[]|e1]]; simpl.
      * rewrite bind_run. unfold lift at 1. rewrite call_run. simpl.
        do 3 eexists. split; [done|]. split; [by rewrite <-(assoc_L (++))|].
        apply exactly_all.
      * do 3 eexists. split; [done|]. split; [done|]. apply exactly_raised.
        by exists [CallSetExtras (extras s)].
    + exists w, (Raise e), []. split; [done|].
      split; [by rewrite (right_id_L [] (++))|]. by apply exactly_raised.
  - exists w, (Ok tt), []. split; [done|].
    split; [by rewrite (right_id_L [] (++))|]. apply exactly_all.
Qed.

Lemma scene_hook_tracks d name :
  tracks d (BlenderScene.scene_hook (X:=X) name)
    (exactly [CallHook name (gltf_scene d)]).
Proof.
  apply tracks_run. intros w <-.
  unfold BlenderScene.scene_hook, gltf_scene, scene_at.
  rewrite bind_run. simpl. rewrite bind_run.
  destruct (scene (data (gltf w))) as [i|]; simpl.
  - rewrite bind_run. unfold lift at 1.
    destruct (BlenderScene.scenes_getitem (data (gltf w)) i) as [s|e] eqn:Hs.
    + simpl. rewrite call_run. simpl. do 3 eexists. split; [done|].
      split; [done|]. apply exactly_all.
    + exists w, (Raise e), []. split; [done|].
      split; [by rewrite (right_id_L [] (++))|].
      apply exactly_raised, prefix_nil.
  - rewrite call_run. simpl. do 3 eexists. split; [done|]. split; [done|].
    apply exactly_all.
Qed.

Lemma build_and_materialize_tracks d :
  tracks d (BlenderScene.build_and_materialize (X:=X))
    (exactly [CallComputeVnodes; CallCreateVnode root]).
Proof.
  apply tracks_run. intros w _.
  unfold BlenderScene.build_and_materialize, BlenderScene.set_vnodes.
  repeat (rewrite bind_run; simpl). rewrite call_run.
  destruct (compute_vnodes (gltf w) (host w)) as [x1 [vs|e]]; simpl.
  - repeat (rewrite bind_run; simpl). rewrite call_run. simpl.
    destruct (create_vnode _ _ x1) as [x2 [vs2|e2]]; simpl.
    + do 3 eexists. split; [done|]. split; [by rewrite <-(assoc_L (++))|].
      apply exactly_all.
    + do 3 eexists. split; [done|]. split; [by rewrite <-(assoc_L (++))|].
      by apply exactly_raised.
  - do 3 eexists. split; [done|]. split; [done|]. apply exactly_raised.
    by exists [CallCreateVnode root].
Qed.

Lemma log_tracks d c : tracks (X:=X) d (log c) (exactly [c]).
Proof. intros w _. exists [c]. split; [done|]. apply exactly_all. Qed.

(** No step of [create] changes the document. *)
Lemma record_context_data :
  preserves (λ w, data (gltf w)) (BlenderScene.record_context (X:=X)).
Proof. unfold BlenderScene.record_context. repeat preserves_step. Qed.

Lemma ensure_render_engine_data :
  preserves (λ w, data (gltf w)) (BlenderScene.ensure_render_engine (X:=X)).
Proof. unfold BlenderScene.ensure_render_engine. repeat preserves_step. Qed.

Lemma before_hook_data :
  preserves (λ w, data (gltf w)) (BlenderScene.before_hook (X:=X)).
Proof. unfold BlenderScene.before_hook. repeat preserves_step. Qed.

Lemma build_and_materialize_data :
  preserves (λ w, data (gltf w)) (BlenderScene.build_and_materialize (X:=X)).
Proof.
  unfold BlenderScene.build_and_materialize, BlenderScene.set_vnodes.
  repeat preserves_step.
Qed.

Lemma scene_hook_data name :
  preserves (λ w, data (gltf w)) (BlenderScene.scene_hook (X:=X) name).
Proof. unfold BlenderScene.scene_hook. repeat preserves_step. Qed.

Lemma create_animations_data :
  preserves (λ w, data (gltf w)) (BlenderScene.create_animations (X:=X)).
Proof. unfold BlenderScene.create_animations. repeat preserves_step. Qed.

Lemma ensure_object_mode_data :
  preserves (λ w, data (gltf w)) (BlenderScene.ensure_object_mode (X:=X)).
Proof. unfold BlenderScene.ensure_object_mode. repeat preserves_step. Qed.

Lemma select_imported_objects_data :
  preserves (λ w, data (gltf w)) (BlenderScene.select_imported_objects (X:=X)).
Proof.
  unfold BlenderScene.select_imported_objects, BlenderScene.select_if_object,
    BlenderScene.select_set.
  repeat preserves_step.
Qed.

Lemma set_active_object_data :
  preserves (λ w, data (gltf w)) (BlenderScene.set_active_object (X:=X)).
Proof. unfold BlenderScene.set_active_object. repeat preserves_step. Qed.

Lemma log_data c : preserves (X:=X) (λ w, data (gltf w)) (log c).
Proof. by intros w. Qed.
End StepsOfCreate.

(** ** The calls of [create] *)

Section Create.
Context {X : Type} `{Host X}.
Implicit Types (w : World X) (d : GltfData).

Lemma create_tracks d : tracks d (BlenderScene.create (X:=X)) (create_shape d).
Proof.
  unfold BlenderScene.create, create_shape.
  apply tracks_bind; [apply record_context_data| |intros _].
  { apply tracks_silent. unfold BlenderScene.record_context.
    repeat preserves_step. }
  apply tracks_bind; [apply ensure_render_engine_data| |intros _].
  { apply tracks_silent. unfold BlenderScene.ensure_render_engine.
    repeat preserves_step. }
  apply tracks_bind; [apply before_hook_data|apply before_hook_tracks|intros _].
  apply tracks_bind; [apply build_and_materialize_data
                     |apply build_and_materialize_tracks|intros _].
  apply tracks_bind; [apply scene_hook_data|apply scene_hook_tracks|intros _].
  apply tracks_bind; [apply log_data|apply log_tracks|intros _].
  apply tracks_bind; [apply create_animations_data
                     |apply emits_tracks, create_animations_emits|intros _].
  apply tracks_bind; [apply scene_hook_data|apply scene_hook_tracks|intros _].
  apply tracks_bind; [apply ensure_object_mode_data
                     |apply emits_tracks, ensure_object_mode_emits|intros _].
  apply tracks_bind; [apply log_data|apply log_tracks|intros _].
  apply tracks_bind; [apply select_imported_objects_data
                     |apply emits_tracks, select_imported_objects_emits
                     |intros _].
  apply tracks_bind; [apply log_data|apply log_tracks|intros _].
  apply tracks_bind; [apply set_active_object_data
                     |apply emits_tracks, set_active_object_emits|intros _].
  apply emits_tracks, regroup_meshes_emits.
Qed.
End Create.

Section ShapeOfCreate.
Implicit Types (d : GltfData) (evs : list Call).

Lemma before_hook_calls_scene d :
  Forall (λ c, is_scene_call c = true) (before_hook_calls d).
Proof.
  unfold before_hook_calls. destruct (gltf_scene d); repeat constructor.
Qed.






End ShapeOfCreate.


Section SceneCalls.
Implicit Types (d : GltfData) (evs : list Call).

Lemma filter_all (sel : Call → bool) (L : list Call) :
  Forall (λ c, sel c = true) L → filter sel L = L.
Proof.
  induction 1 as [|c L Hc _ IH]; [done|].
  rewrite filter_cons_True; [by rewrite IH|]. by rewrite Hc.
Qed.

Ltac scene_only :=
  let ok := fresh in let evs := fresh in
  intros ok evs; apply selects_only; by intros [].

Ltac scene_exactly :=
  let ok := fresh in let evs := fresh in let He := fresh in
  intros ok evs He; exact (selects_exactly is_scene_call _ ok evs He).

Lemma create_shape_scene_calls d ok evs :
  create_shape d ok evs → selects is_scene_call (scene_calls d) ok evs.
Proof.
  intros Hs.
  assert (∃ L, selects is_scene_call L ok evs ∧ L = scene_calls d)
    as (L & HL & <-); [|done].
  eexists. split.
  - revert ok evs Hs. unfold create_shape.
    eapply selects_then; [apply selects_silent|].
    eapply selects_then; [apply selects_silent|].
    eapply selects_then; [scene_exactly|].
    eapply selects_then; [scene_exactly|].
    eapply selects_then; [scene_exactly|].
    eapply selects_then; [scene_exactly|].
    eapply selects_then; [scene_only|].
    eapply selects_then; [scene_exactly|].
    eapply selects_then; [scene_only|].
    eapply selects_then; [scene_exactly|].
    eapply selects_then; [scene_only|].
    eapply selects_then; [scene_exactly|].
    eapply selects_then; [scene_only|].
    scene_only.
  - rewrite (filter_all _ _ (before_hook_calls_scene d)). reflexivity.
Qed.
End SceneCalls.

(** C9.  The calls of [create] to the scene hooks and to [set_extras]
    are, up to the point of an exception and all of them on a normal
    return: the before-scene hook and [set_extras] with the default
    scene and its extras, only if the document designates a default
    scene; then the after-nodes hook and the after-animation hook, with
    the default scene or, if there is none, with [None]. *)
Theorem before_hook_only_with_default_scene {X} `{Host X} (w : World X) :
  let d := data (gltf w) in
  let evs := emitted BlenderScene.create w in
  filter is_scene_call evs `prefix_of` scene_calls d ∧
  ((BlenderScene.create w).2 = Ok tt →
   filter is_scene_call evs = scene_calls d) ∧
  (scene d = None →
   scene_calls d =
     [CallHook "gather_import_scene_after_nodes_hook" None;
      CallHook "gather_import_scene_after_animation_hook" None]) ∧
  (∀ i s, scene d = Some i → scene_at d i = Some s →
   scene_calls d =
     [CallHook "gather_import_scene_before_hook" (Some s);
      CallSetExtras (extras s);
      CallHook "gather_import_scene_after_nodes_hook" (Some s);
      CallHook "gather_import_scene_after_animation_hook" (Some s)]).
Proof.
  intros d evs.
  destruct (create_tracks d w eq_refl) as (evs' & Ht & Hshape).
  assert (evs = evs') as -> by (by apply emitted_app).
  destruct (create_shape_scene_calls _ _ _ Hshape) as [Hpre Hall].
  split; [done|]. split; [|split].
  - intros Hok. apply Hall. by rewrite Hok.
  - intros Hnone. unfold scene_calls, before_hook_calls, gltf_scene.
    by rewrite Hnone.
  - intros i s Hi Hs. unfold scene_calls, before_hook_calls, gltf_scene.
    rewrite Hi. simpl. by rewrite Hs.
Qed.

Lemma before_hook_only_with_default_scene_witness :
  let w := Reference.world CreateExamples.no_default CreateExamples.editing in
  filter is_scene_call (emitted BlenderScene.create w) =
    [CallHook "gather_import_scene_after_nodes_hook" None;
     CallHook "gather_import_scene_after_animation_hook" None].
Proof.
  intros w.
  destruct (before_hook_only_with_default_scene w) as (_ & Hall & Hnone & _).
  rewrite (Hall eq_refl). exact (Hnone eq_refl).
Defined.


(** ** The render engine *)

Section RenderEngine.
Context {X : Type} `{Host X}.
Implicit Types (w : World X).

(** Lines 37-38 on their own. *)
Lemma ensure_render_engine_run w :
  BlenderScene.ensure_render_engine w =
  (mkWorld (gltf w) (engine_after (render_engine w)) (selected w) (active w)
     (host w) (trace w), Ok tt).
Proof.
  unfold BlenderScene.ensure_render_engine, engine_after.
  rewrite bind_run. simpl. case_bool_decide; [by destruct w|done].
Qed.

Lemma engine_after_supported (e : string) :
  engine_after e = "CYCLES" ∨ engine_after e = "BLENDER_EEVEE".
Proof.
  unfold engine_after. case_bool_decide as He; [|by right].
  apply elem_of_cons in He as [->|He]; [by left|].
  apply elem_of_cons in He as [->|He]; [by right|].
  by apply elem_of_nil in He.
Qed.

(** The steps after line 38 do not write [scene.render.engine]. *)
Lemma after_engine_preserved :
  preserves render_engine
    (BlenderScene.before_hook (X:=X);;
     BlenderScene.build_and_materialize;;
     BlenderScene.scene_hook "gather_import_scene_after_nodes_hook";;
     log CallCreateAnimations;;
     BlenderScene.create_animations;;
     BlenderScene.scene_hook "gather_import_scene_after_animation_hook";;
     BlenderScene.ensure_object_mode;;
     log CallSelectImportedObjects;;
     BlenderScene.select_imported_objects;;
     log CallSetActiveObject;;
     BlenderScene.set_active_object;;
     BlenderScene.regroup_meshes).
Proof.
  unfold BlenderScene.before_hook, BlenderScene.build_and_materialize,
    BlenderScene.set_vnodes, BlenderScene.scene_hook,
    BlenderScene.create_animations, BlenderScene.ensure_object_mode,
    BlenderScene.select_imported_objects, BlenderScene.select_if_object,
    BlenderScene.select_set, BlenderScene.set_active_object,
    BlenderScene.regroup_meshes.
  repeat preserves_step.
Qed.

Lemma create_render_engine w :
  render_engine (BlenderScene.create w).1 = engine_after (render_engine w).
Proof.
  unfold BlenderScene.create. rewrite bind_run.
  unfold BlenderScene.record_context at 1. rewrite bind_run. simpl.
  rewrite bind_run, ensure_render_engine_run. simpl.
  by rewrite after_engine_preserved.
Qed.
End RenderEngine.

(** C10.  Lines 37-38 overwrite [scene.render.engine] with
    [BLENDER_EEVEE] unless it is [CYCLES] or [BLENDER_EEVEE], and change
    nothing else; no other step of [create] writes it.  So after every
    import, also one that raises, the render engine is one of the two. *)
Theorem render_engine_supported {X} `{Host X} (w : World X) :
  let w1 := (BlenderScene.ensure_render_engine w).1 in
  let w' := (BlenderScene.create w).1 in
  (BlenderScene.ensure_render_engine w).2 = Ok tt ∧
  render_engine w1 =
    (if bool_decide (render_engine w ∈ ["CYCLES"; "BLENDER_EEVEE"])
     then render_engine w else "BLENDER_EEVEE") ∧
  gltf w1 = gltf w ∧ selected w1 = selected w ∧ active w1 = active w ∧
  host w1 = host w ∧ trace w1 = trace w ∧
  render_engine w' = render_engine w1 ∧
  (render_engine w' = "CYCLES" ∨ render_engine w' = "BLENDER_EEVEE").
Proof.
  intros w1 w'. unfold w1, w'.
  rewrite ensure_render_engine_run, create_render_engine. simpl.
  repeat split; try done. apply engine_after_supported.
Qed.

Lemma render_engine_supported_witness :
  let w := Reference.world Reference.two_roots CreateExamples.editing in
  render_engine w = "BLENDER_WORKBENCH" ∧
  render_engine (BlenderScene.create w).1 = "BLENDER_EEVEE".
Proof.
  intros w. split; [reflexivity|].
  destruct (render_engine_supported w) as (_ & Hstep & _ & _ & _ & _ & _ & Hcreate & _).
  rewrite Hcreate, Hstep. reflexivity.
Defined.

(** ** Further facts and runs *)

(** When the root of the graph is itself an object (the armature of
    joints that are scene roots), rule (c) takes the root. *)
Lemma from_root_not_dummy (g : Gltf) (r : VNode) :
  dict_get root (vnodes g) = Some r → type r ≠ DummyRoot →
  BlenderScene.from_root g = Ok (Some r).
Proof.
  intros Hr Ht. unfold BlenderScene.from_root.
  rewrite (dict_getitem_Some _ _ _ Hr). simpl. by rewrite decide_False.
Qed.

(** A scene index out of range aborts the resolution. *)
Example resolve_vnode_bad_index :
  BlenderScene.resolve_vnode
    (mkGltf (mkGltfData (Some 3) (Some [mkPyScene None None]) None)
       [(root, mkVNode DummyRoot [] None None)] None None None)
  = Raise IndexError.
Proof. reflexivity. Qed.

Example split_fields :
  split "_"%char "loc_12_a__3" = ["loc"; "12"; "a"; ""; "3"].
Proof. reflexivity. Qed.

Example contains_tiles : contains "tiles" "floor_tiles_4" = true.
Proof. reflexivity. Qed.

Example mesh_key_of_name :
  BlenderScene.mesh_key (mkBObject 5%nat "m_12_x_y_3.001" "MESH" (Some "p_q_wall"))
  = Ok ("wall", "12", "3").
Proof. reflexivity. Qed.

Example mesh_key_short_name :
  BlenderScene.mesh_key (mkBObject 5%nat "Cube" "MESH" (Some "p_q_wall"))
  = Raise IndexError.
Proof. reflexivity. Qed.

(** One scene, two root nodes, no animation: both objects end up
    selected and the first root node is active. *)
Example create_two_roots :
  let r := BlenderScene.create
             (Reference.world Reference.two_roots CreateExamples.editing) in
  r.2 = Ok tt ∧
  elements (selected r.1) = [2; 1]%nat ∧
  active r.1 = Some 1%nat ∧
  trace r.1 =
    [CallHook "gather_import_scene_before_hook"
       (Some (mkPyScene (Some [0; 1]) None));
     CallSetExtras None; CallComputeVnodes; CallCreateVnode root;
     CallHook "gather_import_scene_after_nodes_hook"
       (Some (mkPyScene (Some [0; 1]) None));
     CallCreateAnimations;
     CallAnimHook "gather_import_animations" (mkOptions true);
     CallHook "gather_import_scene_after_animation_hook"
       (Some (mkPyScene (Some [0; 1]) None));
     CallModeSet "OBJECT"; CallSelectImportedObjects;
     CallSelectAll "DESELECT"; CallSelectSet 1%nat; CallSelectSet 2%nat;
     CallSetActiveObject; SetActive (Some 1%nat)].
Proof. vm_compute. done. Qed.

(** * Further properties of the methods *)

(** ** [set_active_object]: errors and frame *)

Section ActiveObjectEdges.
Context {X : Type} `{Host X}.
Implicit Types (w : World X) (g : Gltf).

Lemma py_getitem_in_range {A} (l : list A) (i : Z) :
  let n := Z.of_nat (length l) in
  -n ≤ i < n →
  ∃ a, l !! Z.to_nat (i `mod` n) = Some a ∧ py_getitem l i = Ok a.
Proof.
  intros n Hi. unfold py_getitem. fold n.
  assert (0 ≤ i `mod` n < n) as Hm by (apply Z.mod_pos_bound; lia).
  assert ((if i <? 0 then n + i else i) = i `mod` n) as ->.
  { destruct (Z.ltb_spec i 0).
    - apply (Z.mod_unique _ _ (-1)); lia.
    - symmetry. apply Z.mod_small. lia. }
  replace ((0 <=? i `mod` n) && (i `mod` n <? n)) with true
    by (symmetry; apply andb_true_iff; split;
        [apply Z.leb_le|apply Z.ltb_lt]; lia).
  destruct (l !! Z.to_nat (i `mod` n)) as [a|] eqn:Hl; [by exists a|].
  apply lookup_ge_None in Hl. lia.
Qed.

Lemma py_getitem_out_of_range {A} (l : list A) (i : Z) :
  let n := Z.of_nat (length l) in
  i < -n ∨ n ≤ i → py_getitem l i = Raise IndexError.
Proof.
  intros n Hi. unfold py_getitem. fold n.
  replace ((0 <=? (if i <? 0 then n + i else i))
           && ((if i <? 0 then n + i else i) <? n)) with false; [done|].
  symmetry. apply andb_false_iff.
  destruct (Z.ltb_spec i 0); [left; apply Z.leb_gt|right; apply Z.ltb_ge]; lia.
Qed.
End ActiveObjectEdges.

(** X1.  [gltf.data.scenes[gltf.data.scene]] follows Python indexing: an
    index in [-len, len) names the scene at position [i mod len], so a
    negative index counts from the end; any other index raises
    [IndexError]. *)
Theorem scenes_getitem_bounds (d : GltfData) (l : list PyScene) (i : Z) :
  scenes d = Some l →
  let n := Z.of_nat (length l) in
  (-n ≤ i < n →
   ∃ s, l !! Z.to_nat (i `mod` n) = Some s ∧
        BlenderScene.scenes_getitem d i = Ok s) ∧
  (i < -n ∨ n ≤ i → BlenderScene.scenes_getitem d i = Raise IndexError).
Proof.
  intros Hl n. unfold BlenderScene.scenes_getitem. rewrite Hl. split.
  - apply py_getitem_in_range.
  - apply py_getitem_out_of_range.
Qed.

Lemma scenes_getitem_bounds_witness :
  let d := mkGltfData (Some (-1))
             (Some [mkPyScene None None; mkPyScene (Some [4]) None]) None in
  BlenderScene.scenes_getitem d (-1) = Ok (mkPyScene (Some [4]) None) ∧
  BlenderScene.scenes_getitem d 2 = Raise IndexError.
Proof.
  intros d.
  destruct (scenes_getitem_bounds d
              [mkPyScene None None; mkPyScene (Some [4]) None] (-1) eq_refl)
    as [Hin _].
  destruct (scenes_getitem_bounds d
              [mkPyScene None None; mkPyScene (Some [4]) None] 2 eq_refl)
    as [_ Hout].
  split.
  - destruct Hin as (s & Hs & ->); [simpl; lia|].
    vm_compute in Hs. by injection Hs as <-.
  - apply Hout. simpl. lia.
Defined.

(** X2.  [set_active_object] either makes one entity active, recording
    the assignment, or leaves the world exactly as it found it; it does
    the latter whenever it raises.  It never touches the importer object,
    the selection, the render engine or the collaborators' state. *)
Theorem set_active_object_frame {X} `{Host X} (w : World X) :
  let r := BlenderScene.set_active_object w in
  gltf r.1 = gltf w ∧ selected r.1 = selected w ∧
  render_engine r.1 = render_engine w ∧ host r.1 = host w ∧
  (∀ e, r.2 = Raise e → r.1 = w) ∧
  (r.1 = w ∨
   r.2 = Ok tt ∧ trace r.1 = trace w ++ [SetActive (active r.1)]).
Proof.
  intros r. unfold r. rewrite set_active_object_run.
  destruct (BlenderScene.resolve_vnode (gltf w)) as [[v|]|e];
    [|by repeat split; auto..].
  destruct (BlenderScene.armature_of_bone (gltf w) v) as [v'|e];
    [|by repeat split; auto].
  simpl. repeat split; try done. by right.
Qed.

(** X3.  A root node listed by the default scene and missing from the
    graph is a [KeyError]: the resolution does not fall back on the
    other scenes or on the root, and nothing is made active. *)
Theorem listed_node_missing_raises {X} `{Host X} (w : World X)
    (i : Z) (s : PyScene) (n : Z) (ns : list Z) :
  scene (data (gltf w)) = Some i →
  BlenderScene.scenes_getitem (data (gltf w)) i = Ok s →
  nodes s = Some (n :: ns) →
  dict_get (node n) (vnodes (gltf w)) = None →
  BlenderScene.set_active_object w = (w, Raise KeyError).
Proof.
  intros Hi Hs Hn Hmiss. rewrite set_active_object_run.
  unfold BlenderScene.resolve_vnode, BlenderScene.from_default_scene.
  rewrite Hi, Hs. simpl. rewrite Hn. unfold dict_getitem. by rewrite Hmiss.
Qed.

Lemma listed_node_missing_raises_witness :
  let g := mkGltf
             (mkGltfData (Some 0)
                (Some [mkPyScene (Some [5]) None; mkPyScene (Some [0]) None])
                None)
             [(node 0, mkVNode Object [] None (Some 1%nat));
              (root, mkVNode DummyRoot [node 0] None None)]
             None None None in
  let w := Examples.world_of g Examples.idle in
  BlenderScene.set_active_object w = (w, Raise KeyError).
Proof.
  intros g w.
  exact (listed_node_missing_raises w 0 (mkPyScene (Some [5]) None) 5 []
           eq_refl eq_refl eq_refl eq_refl).
Defined.

(** X4.  When no scene lists a node and the root of the graph is not a
    [DummyRoot] but an object (the armature that owns root joints), the
    root itself is made active, whatever children it has. *)
Theorem root_object_made_active {X} `{Host X} (w : World X) (r : VNode) :
  (∀ i, scene (data (gltf w)) = Some i →
        is_Some (scene_at (data (gltf w)) i)) →
  (∀ s, s ∈ default [] (scenes (data (gltf w))) → has_nodes s = false) →
  dict_get root (vnodes (gltf w)) = Some r →
  type r = Object →
  BlenderScene.set_active_object w = (activate r w, Ok tt).
Proof.
  intros Hi Hl Hr Ht. rewrite set_active_object_run.
  unfold BlenderScene.resolve_vnode.
  rewrite from_default_scene_no_nodes by done. simpl.
  rewrite from_scenes_no_nodes by done. simpl.
  rewrite (from_root_not_dummy _ r) by (done || congruence).
  unfold BlenderScene.armature_of_bone.
  by rewrite decide_False by congruence.
Qed.

Lemma root_object_made_active_witness :
  let g := mkGltf (mkGltfData None (Some [mkPyScene None None]) None)
             [(node 0, mkVNode Bone [] (Some root) None);
              (root, mkVNode Object [node 0] None (Some 9%nat))]
             None None None in
  active (BlenderScene.set_active_object
            (Examples.world_of g Examples.idle)).1 = Some 9%nat.
Proof.
  intros g.
  rewrite (root_object_made_active (Examples.world_of g Examples.idle)
             (mkVNode Object [node 0] None (Some 9%nat))).
  - reflexivity.
  - intros i Hi. discriminate Hi.
  - intros s Hs. apply list_elem_of_singleton in Hs as ->. reflexivity.
  - reflexivity.
  - reflexivity.
Defined.

(** ** Loops *)

Section Loops.
Context {X : Type}.
Implicit Types (w : World X).

(** A loop over [l1 ++ l2] is the loop over [l1] followed by the loop
    over [l2], which does not start if the first one raises. *)
Lemma for_each_app {A} (l1 l2 : list A) (body : A → M X unit) w :
  for_each (l1 ++ l2) body w =
  match for_each l1 body w with
  | (w', Ok _) => for_each l2 body w'
  | (w', Raise e) => (w', Raise e)
  end.
Proof.
  revert w. induction l1 as [|x l1 IH]; intros w; [done|].
  simpl. rewrite !bind_run. destruct (body x w) as [w1 [[]|e]]; [|done].
  apply IH.
Qed.

(** Nested loops run as one loop over the concatenation. *)
Lemma for_each_concat {A B} (l : list A) (f : A → list B)
    (body : B → M X unit) w :
  for_each l (λ x, for_each (f x) body) w =
  for_each (concat (f <$> l)) body w.
Proof.
  revert w. induction l as [|x l IH]; intros w; [done|].
  simpl. rewrite bind_run, for_each_app.
  destruct (for_each (f x) body w) as [w1 [[]|e]]; [|done].
  apply IH.
Qed.

(** A loop of recorded collaborator calls makes the calls of an initial
    part of the list, all of them on a normal return, and moves only the
    host state. *)
Lemma call_loop {A} (l : list A) (c : A → Call) (h : A → X → X * result unit) w :
  ∃ x' r k,
    for_each l (λ a, call (c a) (h a)) w =
      (mkWorld (gltf w) (render_engine w) (selected w) (active w) x'
         (trace w ++ (c <$> take k l)), r) ∧
    (is_ok r = true → take k l = l).
Proof.
  revert w. induction l as [|a l IH]; intros w.
  - exists (host w), (Ok tt), 0%nat. simpl.
    rewrite (right_id_L [] (++)). by destruct w.
  - simpl for_each. rewrite bind_run, call_run.
    destruct (h a (host w)) as [x1 [[]|e]]; simpl.
    + destruct (IH (mkWorld (gltf w) (render_engine w) (selected w)
                      (active w) x1 (trace w ++ [c a])))
        as (x' & r & k & -> & Hk).
      exists x', r, (S k). simpl. split.
      * by rewrite <-(assoc_L (++)).
      * intros Hr. by rewrite (Hk Hr).
    + by exists x1, (Raise e), 1%nat.
Qed.
End Loops.

(** ** [select_imported_objects]: errors, frame, composition *)

Section SelectionEdges.
Context {X : Type} `{Host X}.
Implicit Types (w : World X) (vs : list VNode).

Lemma select_imported_objects_loop w :
  BlenderScene.select_imported_objects w =
  for_each (dict_values (vnodes (gltf w))) BlenderScene.select_if_object
    (deselected w).
Proof.
  unfold BlenderScene.select_imported_objects, deselected.
  rewrite bind_run. simpl. rewrite bind_run.
  by destruct (select_all_poll (host w)).
Qed.

(** The loop of lines 151-153 on any graph: it only adds to the
    selection and touches nothing else but the trace. *)
Lemma select_loop_any vs w :
  let r := for_each vs BlenderScene.select_if_object w in
  gltf r.1 = gltf w ∧ render_engine r.1 = render_engine w ∧
  active r.1 = active w ∧ host r.1 = host w ∧ selected w ⊆ selected r.1.
Proof.
  revert w. induction vs as [|v vs IH]; intros w; [done|].
  simpl for_each. rewrite bind_run.
  unfold BlenderScene.select_if_object at 1, BlenderScene.select_set.
  case_decide; [destruct (blender_object v) as [o|]|]; simpl; try done.
  - destruct (IH (mkWorld (gltf w) (render_engine w) ({[o]} ∪ selected w)
                    (active w) (host w) (trace w ++ [CallSelectSet o])))
      as (? & ? & ? & ? & Hsub).
    simpl in *. repeat split; try done. set_solver.
Qed.
End SelectionEdges.

(** X5.  On every run, also one that raises, the selection step leaves
    the importer object, the render engine, the active object and the
    collaborators' state alone; and when [select_all] cannot run it only
    adds to the selection. *)
Theorem select_imported_objects_frame {X} `{Host X} (w : World X) :
  let r := BlenderScene.select_imported_objects w in
  gltf r.1 = gltf w ∧ render_engine r.1 = render_engine w ∧
  active r.1 = active w ∧ host r.1 = host w ∧
  (select_all_poll (host w) = false → selected w ⊆ selected r.1).
Proof.
  intros r. unfold r. rewrite select_imported_objects_loop.
  destruct (select_loop_any (dict_values (vnodes (gltf w))) (deselected w))
    as (Hg & He & Ha & Hh & Hsub).
  unfold deselected in *.
  destruct (select_all_poll (host w)); simpl in *; repeat split; try done.
Qed.

(** X6.  An [Object] node without a host entity stops the selection step
    with an [AttributeError]; the entities of the [Object] nodes before
    it in the graph are selected by then, those after it are not
    reached. *)
Theorem select_unmaterialized_raises {X} `{Host X} (w : World X)
    (pre post : list VNode) (v : VNode) :
  dict_values (vnodes (gltf w)) = pre ++ v :: post →
  (∀ u, u ∈ pre → type u = Object → is_Some (blender_object u)) →
  type v = Object →
  blender_object v = None →
  let r := BlenderScene.select_imported_objects w in
  r.2 = Raise AttributeError ∧
  selected r.1 = list_to_set (entities_of pre) ∪ selected (deselected w) ∧
  trace r.1 = trace (deselected w) ++ (CallSelectSet <$> entities_of pre).
Proof.
  intros Hvs Hpre Ht Hnone r. unfold r.
  rewrite select_imported_objects_loop, Hvs, for_each_app.
  destruct (select_loop pre (deselected w) Hpre)
    as (w' & -> & _ & _ & _ & _ & Htr & Hsel).
  simpl for_each. rewrite bind_run.
  assert (BlenderScene.select_if_object v w' = (w', Raise AttributeError))
    as ->.
  { unfold BlenderScene.select_if_object, BlenderScene.select_set.
    by rewrite decide_True, Hnone by done. }
  by simpl.
Qed.

Lemma select_unmaterialized_raises_witness :
  let g := mkGltf (mkGltfData None None None)
             [(node 0, mkVNode Object [] None (Some 1%nat));
              (node 1, mkVNode Object [] None None);
              (node 2, mkVNode Object [] None (Some 3%nat))]
             None None None in
  let r := BlenderScene.select_imported_objects
             (Examples.world_of g Examples.idle) in
  r.2 = Raise AttributeError ∧ elements (selected r.1) = [1%nat].
Proof.
  intros g r.
  destruct (select_unmaterialized_raises (Examples.world_of g Examples.idle)
              [mkVNode Object [] None (Some 1%nat)]
              [mkVNode Object [] None (Some 3%nat)]
              (mkVNode Object [] None None))
    as (Hr & Hsel & _).
  - reflexivity.
  - intros u Hu _. apply list_elem_of_singleton in Hu as ->. by eexists.
  - reflexivity.
  - reflexivity.
  - split; [exact Hr|]. unfold r. rewrite Hsel. reflexivity.
Defined.

(** X7.  Selecting the imported objects twice selects what selecting
    them once does. *)
Theorem select_imported_objects_idempotent {X} `{Host X} (w : World X) :
  (∀ v, v ∈ dict_values (vnodes (gltf w)) → type v = Object →
        is_Some (blender_object v)) →
  let w1 := (BlenderScene.select_imported_objects w).1 in
  (BlenderScene.select_imported_objects w1).2 = Ok tt ∧
  selected (BlenderScene.select_imported_objects w1).1 = selected w1.
Proof.
  intros Hm w1. unfold w1. rewrite (select_imported_objects_loop w).
  destruct (select_loop _ (deselected w) Hm)
    as (w' & -> & Hg & _ & _ & Hh & _ & Hsel).
  simpl. rewrite select_imported_objects_loop.
  assert (gltf w' = gltf w) as Hgw.
  { rewrite Hg. unfold deselected. by destruct (select_all_poll (host w)). }
  assert (host w' = host w) as Hhw.
  { rewrite Hh. unfold deselected. by destruct (select_all_poll (host w)). }
  rewrite Hgw.
  destruct (select_loop _ (deselected w') Hm)
    as (w'' & -> & _ & _ & _ & _ & _ & Hsel').
  simpl. split; [done|]. rewrite Hsel'.
  unfold deselected in *. rewrite Hhw.
  destruct (select_all_poll (host w)); simpl in *; rewrite Hsel; set_solver.
Qed.

Lemma select_imported_objects_idempotent_witness :
  let w1 := (BlenderScene.select_imported_objects
               SelectionExamples.two_objects).1 in
  selected (BlenderScene.select_imported_objects w1).1 = selected w1.
Proof.
  intros w1.
  refine (proj2 (select_imported_objects_idempotent
                   SelectionExamples.two_objects _)).
  intros v Hv Ht. vm_compute in Hv.
  repeat (apply elem_of_cons in Hv as [->|Hv];
          [first [discriminate Ht | by eexists]|]).
  by apply elem_of_nil in Hv.
Defined.

(** ** Selection and activation together *)

Section ResolvedNodes.
Implicit Types (g : Gltf) (v : VNode).

Lemma dict_getitem_elem {K V} `{EqDecision K} (d : pydict K V) k (x : V) :
  dict_getitem d k = Ok x → x ∈ dict_values d.
Proof.
  unfold dict_getitem. destruct (dict_get k d) as [x'|] eqn:Hd; [|done].
  intros [= <-]. by eapply dict_get_elem.
Qed.

Lemma from_scenes_elem g (l : list PyScene) v :
  BlenderScene.from_scenes g l = Ok (Some v) → v ∈ dict_values (vnodes g).
Proof.
  induction l as [|s l IH]; [done|]. simpl.
  destruct (nodes s) as [[|n ns]|]; try done. simpl.
  destruct (dict_getitem (vnodes g) (node n)) as [v'|] eqn:Hd; [|done].
  intros [= <-]. by eapply dict_getitem_elem.
Qed.

(** The node the resolution yields is a node of the graph. *)
Lemma resolve_vnode_elem g v :
  BlenderScene.resolve_vnode g = Ok (Some v) → v ∈ dict_values (vnodes g).
Proof.
  unfold BlenderScene.resolve_vnode.
  destruct (BlenderScene.from_default_scene g) as [[v1|]|] eqn:H1; simpl;
    [| |done].
  { intros [= <-]. unfold BlenderScene.from_default_scene in H1.
    destruct (scene (data g)); [|done].
    destruct (BlenderScene.scenes_getitem _ _) as [s|]; [|done]. simpl in H1.
    destruct (nodes s) as [[|n ns]|]; try done. simpl in H1.
    destruct (dict_getitem (vnodes g) (node n)) as [v'|] eqn:Hd; [|done].
    injection H1 as <-. by eapply dict_getitem_elem. }
  destruct (BlenderScene.from_scenes g _) as [[v2|]|] eqn:H2; simpl; [| |done].
  { intros [= <-]. by eapply from_scenes_elem. }
  unfold BlenderScene.from_root.
  destruct (dict_getitem (vnodes g) root) as [r|] eqn:Hr; [|done]. simpl.
  case_decide.
  - destruct (children r) as [|c cs]; [done|]. simpl.
    destruct (dict_getitem (vnodes g) c) as [v'|] eqn:Hc; [|done].
    intros [= <-]. by eapply dict_getitem_elem.
  - intros [= <-]. by eapply dict_getitem_elem.
Qed.

Lemma armature_of_bone_elem g v v' :
  v ∈ dict_values (vnodes g) → BlenderScene.armature_of_bone g v = Ok v' →
  v' ∈ dict_values (vnodes g).
Proof.
  unfold BlenderScene.armature_of_bone. intros Hv. case_decide.
  - destruct (bone_arma v); [|done]. apply dict_getitem_elem.
  - by intros [= <-].
Qed.
End ResolvedNodes.

(** X8.  When exactly the [Object] nodes carry a host entity, the
    entity that [set_active_object] makes active, run after
    [select_imported_objects] as in [create], is one of the selected
    entities. *)
Theorem active_object_is_selected {X} `{Host X} (w : World X) (o : obj) :
  materialized (gltf w) →
  let m := BlenderScene.select_imported_objects;;
           BlenderScene.set_active_object in
  SetActive (Some o) ∈ emitted m w →
  active (m w).1 = Some o ∧ o ∈ selected (m w).1.
Proof.
  intros Hm m.
  assert (∀ v, v ∈ dict_values (vnodes (gltf w)) → type v = Object →
               is_Some (blender_object v)) as Hobj
    by (intros v Hv Ht; by apply Hm).
  destruct (select_loop _ (deselected w) Hobj)
    as (w1 & Hrun1 & Hg & _ & _ & _ & Htr & Hsel).
  assert (gltf w1 = gltf w) as Hgw.
  { rewrite Hg. unfold deselected. by destruct (select_all_poll (host w)). }
  set (S := (if select_all_poll (host w)
             then [CallSelectAll "DESELECT"] else [])
            ++ (CallSelectSet <$> object_entities (gltf w))).
  assert (trace w1 = trace w ++ S) as Htr1.
  { rewrite Htr. unfold S, deselected, object_entities.
    destruct (select_all_poll (host w)); simpl; by rewrite <-?(assoc_L (++)). }
  assert (SetActive (Some o) ∉ S) as HS.
  { unfold S. intros [Hin|Hin]%elem_of_app.
    - by destruct (select_all_poll (host w));
        [apply list_elem_of_singleton in Hin|apply elem_of_nil in Hin].
    - by apply list_elem_of_fmap in Hin as (? & ? & _). }
  unfold emitted.
  assert (m w = BlenderScene.set_active_object w1) as ->.
  { unfold m. by rewrite bind_run, select_imported_objects_loop, Hrun1. }
  rewrite set_active_object_run. unfold activate.
  destruct (BlenderScene.resolve_vnode (gltf w1)) as [[v|]|e] eqn:Hres; simpl;
    try (rewrite Htr1, drop_app_length; by intros ?%HS).
  destruct (BlenderScene.armature_of_bone (gltf w1) v) as [v'|e] eqn:Harma;
    simpl; try (rewrite Htr1, drop_app_length; by intros ?%HS).
  rewrite Htr1, <-(assoc_L (++)), drop_app_length.
  intros [?%HS|[= Ho]%list_elem_of_singleton]%elem_of_app; [done|].
  split; [done|]. rewrite Hsel. apply elem_of_union_l, elem_of_list_to_set.
  fold (object_entities (gltf w)). apply elem_of_object_entities.
  assert (v' ∈ dict_values (vnodes (gltf w))) as Hv'.
  { rewrite <-Hgw. eapply armature_of_bone_elem; [|done].
    by apply resolve_vnode_elem. }
  exists v'. split; [done|]. split; [|done]. apply Hm; [done|by eexists].
Qed.

Lemma active_object_is_selected_witness :
  let w := SelectionExamples.two_objects in
  let m := BlenderScene.select_imported_objects;;
           BlenderScene.set_active_object in
  active (m w).1 = Some 1%nat ∧ 1%nat ∈ selected (m w).1.
Proof.
  intros w m. apply (active_object_is_selected w 1%nat).
  - intros v Hv. vm_compute in Hv.
    repeat (apply elem_of_cons in Hv as [->|Hv];
            [first [split; [intros Ht; discriminate Ht
                           |intros [x Hx]; discriminate Hx]
                   |split; [intros _; by eexists|done]]|]).
    by apply elem_of_nil in Hv.
  - vm_compute. repeat constructor.
Defined.

(** ** [create]: the first lines *)

Section CreateEdges.
Context {X : Type} `{Host X}.
Implicit Types (w : World X).

(** Lines 33-36 on their own. *)
Lemma record_context_run w :
  BlenderScene.record_context w =
  (mkWorld
     (mkGltf (data (gltf w)) (vnodes (gltf w)) (Some (scene_name (host w)))
        (if bool_decide (collection_name (host w) ∈ data_collections (host w))
         then Some (collection_name (host w))
         else blender_active_collection (gltf w))
        (display_current_node (gltf w)))
     (render_engine w) (selected w) (active w) (host w) (trace w), Ok tt).
Proof. reflexivity. Qed.

(** No step after line 36 assigns [gltf.blender_scene] or
    [gltf.blender_active_collection]. *)
Lemma context_kept :
  preserves (λ w, (blender_scene (gltf w), blender_active_collection (gltf w)))
    (BlenderScene.ensure_render_engine (X:=X);;
     BlenderScene.before_hook;;
     BlenderScene.build_and_materialize;;
     BlenderScene.scene_hook "gather_import_scene_after_nodes_hook";;
     log CallCreateAnimations;;
     BlenderScene.create_animations;;
     BlenderScene.scene_hook "gather_import_scene_after_animation_hook";;
     BlenderScene.ensure_object_mode;;
     log CallSelectImportedObjects;;
     BlenderScene.select_imported_objects;;
     log CallSetActiveObject;;
     BlenderScene.set_active_object;;
     BlenderScene.regroup_meshes).
Proof.
  unfold BlenderScene.ensure_render_engine, BlenderScene.before_hook,
    BlenderScene.build_and_materialize, BlenderScene.set_vnodes,
    BlenderScene.scene_hook, BlenderScene.create_animations,
    BlenderScene.ensure_object_mode, BlenderScene.select_imported_objects,
    BlenderScene.select_if_object, BlenderScene.select_set,
    BlenderScene.set_active_object, BlenderScene.regroup_meshes.
  repeat preserves_step.
Qed.
End CreateEdges.

(** X9.  [create] records the host context on the importer object before
    anything else: after every import, also one that raises,
    [gltf.blender_scene] is the name of the scene the import started in,
    and [gltf.blender_active_collection] is the name of the context
    collection if [bpy.data.collections] holds it, and is left as it was
    otherwise (the master collection). *)
Theorem create_records_context {X} `{Host X} (w : World X) :
  let g' := gltf (BlenderScene.create w).1 in
  blender_scene g' = Some (scene_name (host w)) ∧
  blender_active_collection g' =
    if bool_decide (collection_name (host w) ∈ data_collections (host w))
    then Some (collection_name (host w))
    else blender_active_collection (gltf w).
Proof.
  intros g'. unfold g', BlenderScene.create.
  rewrite bind_run, record_context_run.
  pose proof (context_kept
    (mkWorld
       (mkGltf (data (gltf w)) (vnodes (gltf w)) (Some (scene_name (host w)))
          (if bool_decide (collection_name (host w) ∈ data_collections (host w))
           then Some (collection_name (host w))
           else blender_active_collection (gltf w))
          (display_current_node (gltf w)))
       (render_engine w) (selected w) (active w) (host w) (trace w))) as Hk.
  simpl in Hk. by injection Hk as -> ->.
Qed.

(** X10.  A default scene index that names no scene stops [create] at
    line 41 with the exception of the subscript: no collaborator has been
    called, the graph is not built, and selection and active object are
    untouched, while the host context is recorded and the render engine
    already set. *)
Theorem create_bad_default_scene {X} `{Host X} (w : World X) (i : Z) (e : exn) :
  scene (data (gltf w)) = Some i →
  BlenderScene.scenes_getitem (data (gltf w)) i = Raise e →
  let r := BlenderScene.create w in
  r.2 = Raise e ∧ trace r.1 = trace w ∧ host r.1 = host w ∧
  vnodes (gltf r.1) = vnodes (gltf w) ∧
  selected r.1 = selected w ∧ active r.1 = active w ∧
  render_engine r.1 = engine_after (render_engine w).
Proof.
  intros Hi He r.
  assert (∃ g', BlenderScene.create w =
                  (mkWorld g' (engine_after (render_engine w)) (selected w)
                     (active w) (host w) (trace w), Raise e) ∧
                vnodes g' = vnodes (gltf w)) as (g' & Hrun & Hv).
  { eexists. split.
    - unfold BlenderScene.create.
      rewrite bind_run, record_context_run, bind_run, ensure_render_engine_run.
      rewrite bind_run. unfold BlenderScene.before_hook at 1.
      rewrite bind_run. simpl. rewrite Hi, bind_run. unfold lift at 1.
      rewrite He. reflexivity.
    - done. }
  unfold r. rewrite Hrun. by simpl.
Qed.

Lemma create_bad_default_scene_witness :
  let d := mkGltfData (Some 3) (Some [mkPyScene (Some [0]) None]) None in
  let r := BlenderScene.create (Reference.world d CreateExamples.editing) in
  r.2 = Raise IndexError ∧ trace r.1 = [] ∧ render_engine r.1 = "BLENDER_EEVEE".
Proof.
  intros d r.
  destruct (create_bad_default_scene
              (Reference.world d CreateExamples.editing) 3 IndexError
              eq_refl eq_refl) as (Hr & Htr & _ & _ & _ & _ & He).
  split; [exact Hr|]. split; [exact Htr|]. exact He.
Defined.

(** ** Object names *)

Section Names.
Implicit Types (s n : string) (c : Ascii.ascii).

Lemma prefix_empty s : String.prefix "" s = true.
Proof. by destruct s. Qed.

(** [c] does not occur in [String a s]. *)
Lemma contains_char_cons c a s :
  contains (String c "") (String a s) = false →
  Ascii.eqb a c = false ∧ contains (String c "") s = false.
Proof.
  simpl. destruct (Ascii.ascii_dec c a) as [->|Hne].
  - by rewrite prefix_empty.
  - intros Hs. split; [|by destruct s].
    apply Ascii.eqb_neq. congruence.
Qed.

(** A string without the separator is a single field. *)
Lemma split_no_separator c n :
  contains (String c "") n = false → split c n = [n].
Proof.
  induction n as [|a n IH]; [done|].
  intros [Ha Hn]%contains_char_cons. simpl. by rewrite Ha, (IH Hn).
Qed.

(** The first field ends at the first separator. *)
Lemma split_first_field c n s :
  contains (String c "") n = false →
  split c (n ++ String c s) = n :: split c s.
Proof.
  induction n as [|a n IH].
  - intros _. simpl. by rewrite Ascii.eqb_refl.
  - intros [Ha Hn]%contains_char_cons. simpl. by rewrite Ha, (IH Hn).
Qed.

(** A character that does not occur in a string does not occur in its
    first field. *)
Lemma first_field_no_char c sep n :
  contains (String c "") n = false →
  contains (String c "") (hd "" (split sep n)) = false.
Proof.
  induction n as [|a n IH]; [done|].
  intros Hc. pose proof Hc as [Ha Hn]%contains_char_cons. simpl split.
  destruct (Ascii.eqb a sep); [done|].
  specialize (IH Hn). destruct (split sep n) as [|f fs]; simpl in *.
  - destruct (Ascii.ascii_dec c a) as [->|?]; [by rewrite Ascii.eqb_refl in Ha|].
    done.
  - destruct (Ascii.ascii_dec c a) as [->|?]; [by rewrite Ascii.eqb_refl in Ha|].
    by destruct f.
Qed.
End Names.

(** X11.  The grouping key of a mesh is read off the part of its name
    before the first dot: the suffix Blender appends to a duplicate
    ([".001"]) does not change the key. *)
Theorem mesh_key_ignores_suffix (ob : BObject) (suffix : string) :
  contains "." (ob_name ob) = false →
  BlenderScene.mesh_key (rename (ob_name ob +:+ String "." suffix) ob)
  = BlenderScene.mesh_key ob.
Proof.
  intros Hdot. unfold BlenderScene.mesh_key, rename.
  cbn [ob_name ob_parent_name].
  rewrite (split_first_field "." (ob_name ob)) by done.
  by rewrite (split_no_separator "." (ob_name ob)) by done.
Qed.

Lemma mesh_key_ignores_suffix_witness :
  BlenderScene.mesh_key (rename "m_12_x_y_3.001" RegroupExamples.wall_a)
  = Ok ("wall", "12", "3").
Proof.
  exact (eq_trans
           (mesh_key_ignores_suffix RegroupExamples.wall_a "001" eq_refl)
           eq_refl).
Defined.

(** X12.  A mesh whose name has no underscore has no grouping key: the
    lookup of its second field raises [IndexError], whatever its parent. *)
Theorem mesh_key_without_underscore (ob : BObject) :
  contains "_" (ob_name ob) = false →
  BlenderScene.mesh_key ob = Raise IndexError.
Proof.
  intros Hus. unfold BlenderScene.mesh_key.
  by rewrite (split_no_separator _ _ (first_field_no_char _ "." _ Hus)).
Qed.

Lemma mesh_key_without_underscore_witness :
  BlenderScene.mesh_key RegroupExamples.cube = Raise IndexError.
Proof. exact (mesh_key_without_underscore RegroupExamples.cube eq_refl). Defined.

(** ** The dictionary of mesh groups *)

Section DictAppend.
Context {K V : Type} `{EqDecision K}.
Implicit Types (d : pydict K (list V)) (k : K) (v : V).

Lemma dict_append_lookup d k v k' :
  dict_get k' (BlenderScene.dict_append k v d) =
  if decide (k' = k) then Some (default [] (dict_get k d) ++ [v])
  else dict_get k' d.
Proof.
  induction d as [|[k0 vs] d IH]; simpl.
  - repeat case_decide; congruence.
  - destruct (decide (k = k0)) as [->|Hne]; simpl.
    + repeat case_decide; congruence.
    + rewrite IH. repeat case_decide; congruence.
Qed.

Lemma dict_append_keys d k v :
  (BlenderScene.dict_append k v d).*1 =
  if decide (k ∈ d.*1) then d.*1 else d.*1 ++ [k].
Proof.
  induction d as [|[k0 vs] d IH].
  - by destruct (decide (k ∈ ([] : pydict K (list V)).*1))
      as [?%elem_of_nil|].
  - cbn [BlenderScene.dict_append].
    destruct (decide (k = k0)) as [->|Hne]; rewrite !fmap_cons; cbn [fst].
    + by rewrite decide_True by left.
    + rewrite IH. destruct (decide (k ∈ d.*1)).
      * by rewrite decide_True by (by right).
      * rewrite decide_False; [done|]. by intros [?|?]%elem_of_cons.
Qed.

Lemma dict_append_NoDup d k v :
  NoDup d.*1 → NoDup (BlenderScene.dict_append k v d).*1.
Proof.
  intros Hd. rewrite dict_append_keys. case_decide; [done|].
  apply NoDup_app. split; [done|]. split; [|apply NoDup_singleton].
  by intros k' Hk' ->%list_elem_of_singleton.
Qed.

Lemma dict_append_values d k v :
  concat (BlenderScene.dict_append k v d).*2 ≡ₚ v :: concat d.*2.
Proof.
  induction d as [|[k0 vs] d IH]; [done|].
  cbn [BlenderScene.dict_append].
  destruct (decide (k = k0)) as [->|Hne]; rewrite !fmap_cons;
    cbn [snd concat].
  - rewrite <-(assoc_L (++)). symmetry. apply Permutation_middle.
  - rewrite IH. symmetry. apply Permutation_middle.
Qed.

Lemma dict_get_NoDup (d : pydict K (list V)) k (l : list V) :
  NoDup d.*1 → (k, l) ∈ d → dict_get k d = Some l.
Proof.
  induction d as [|[k0 vs] d IH]; simpl; [by intros _ ?%elem_of_nil|].
  intros [Hk0 Hd]%NoDup_cons [[= -> ->]|Hin]%elem_of_cons.
  - by rewrite decide_True.
  - rewrite decide_False; [by apply IH|].
    intros ->. apply Hk0. apply list_elem_of_fmap. by exists (k0, l).
Qed.
End DictAppend.

(** X13.  Appending a mesh under a key (lines 91-93) creates the key, at
    the end of the dictionary and with the mesh as its only element, if
    it is new, and adds the mesh at the end of the key's list otherwise;
    the lists of the other keys and the order of the keys stay as they
    are, and no key appears twice. *)
Theorem dict_append_spec {K V : Type} `{EqDecision K}
    (d : pydict K (list V)) (k : K) (v : V) :
  (∀ k', dict_get k' (BlenderScene.dict_append k v d) =
         if decide (k' = k) then Some (default [] (dict_get k d) ++ [v])
         else dict_get k' d) ∧
  (BlenderScene.dict_append k v d).*1 =
    (if decide (k ∈ d.*1) then d.*1 else d.*1 ++ [k]) ∧
  (NoDup d.*1 → NoDup (BlenderScene.dict_append k v d).*1).
Proof.
  split; [intros k'; apply dict_append_lookup|].
  split; [apply dict_append_keys|apply dict_append_NoDup].
Qed.

(** ** Grouping the meshes (lines 82-93) *)

Section Grouping.
Implicit Types (ob : BObject) (obs seen : list BObject)
  (acc d : pydict (string * string * string) (list BObject))
  (k : string * string * string).

(** One round of the loop of lines 83-93. *)
Lemma group_meshes_cons ob obs acc :
  BlenderScene.group_meshes (ob :: obs) acc =
  if relevant ob then
    match BlenderScene.mesh_key ob with
    | Ok k => BlenderScene.group_meshes obs (BlenderScene.dict_append k ob acc)
    | Raise e => Raise e
    end
  else BlenderScene.group_meshes obs acc.
Proof.
  unfold relevant. simpl.
  destruct (String.eqb (ob_type ob) "MESH"); [|done].
  destruct (contains "tiles" (ob_name ob) || contains "type" (ob_name ob));
    [done|].
  simpl. by destruct (BlenderScene.mesh_key ob).
Qed.

Lemma filter_relevant_cons ob obs :
  filter relevant (ob :: obs) =
  if relevant ob then ob :: filter relevant obs else filter relevant obs.
Proof.
  destruct (relevant ob) eqn:Hr.
  - rewrite filter_cons_True; [done|]. by apply Is_true_true_2.
  - rewrite filter_cons_False; [done|]. by apply Is_true_false_2.
Qed.

Lemma group_meshes_filter obs acc :
  BlenderScene.group_meshes obs acc =
  BlenderScene.group_meshes (filter relevant obs) acc.
Proof.
  revert acc. induction obs as [|ob obs IH]; intros acc; [done|].
  rewrite filter_relevant_cons, group_meshes_cons.
  destruct (relevant ob) eqn:Hr; [|apply IH].
  rewrite group_meshes_cons, Hr.
  destruct (BlenderScene.mesh_key ob); [apply IH|done].
Qed.

Lemma group_meshes_ok obs acc :
  is_ok (BlenderScene.group_meshes obs acc) =
  forallb well_named (filter relevant obs).
Proof.
  revert acc. induction obs as [|ob obs IH]; intros acc; [done|].
  rewrite filter_relevant_cons, group_meshes_cons.
  destruct (relevant ob); [|apply IH]. simpl. unfold well_named at 1.
  destruct (BlenderScene.mesh_key ob); simpl; [apply IH|done].
Qed.

Lemma group_meshes_first_error obs acc e :
  BlenderScene.group_meshes obs acc = Raise e →
  ∃ pre ob post,
    filter relevant obs = pre ++ ob :: post ∧
    forallb well_named pre = true ∧
    BlenderScene.mesh_key ob = Raise e.
Proof.
  revert acc. induction obs as [|ob obs IH]; intros acc; [done|].
  rewrite filter_relevant_cons, group_meshes_cons.
  destruct (relevant ob); [|apply IH].
  destruct (BlenderScene.mesh_key ob) as [k|e'] eqn:Hk.
  - intros (pre & ob' & post & -> & Hpre & He)%IH.
    exists (ob :: pre), ob', post. split; [done|]. split; [|done].
    simpl. unfold well_named at 1. by rewrite Hk.
  - intros [= ->]. by exists [], ob, (filter relevant obs).
Qed.

Lemma filter_keyed_snoc k seen ob k' :
  BlenderScene.mesh_key ob = Ok k' →
  filter (keyed k) (seen ++ [ob]) =
  filter (keyed k) seen ++ (if decide (k = k') then [ob] else []).
Proof.
  intros Hk. rewrite filter_app. f_equal. unfold keyed.
  case_decide as Hkk.
  - rewrite filter_cons_True; [done|]. rewrite Hk, Hkk. by apply bool_decide_pack.
  - rewrite filter_cons_False; [done|]. rewrite Hk.
    intros [= ?]%bool_decide_unpack. done.
Qed.

Lemma default_nonempty {A} (l : list A) : default [] (nonempty l) = l.
Proof. by destruct l. Qed.

Lemma nonempty_snoc {A} (l : list A) x : nonempty (l ++ [x]) = Some (l ++ [x]).
Proof. by destruct l. Qed.

(** The invariant of the loop: the dictionary holds, under each key, the
    objects seen so far that have this key, in the order seen. *)
Lemma group_meshes_invariant obs acc seen d :
  BlenderScene.group_meshes obs acc = Ok d →
  NoDup acc.*1 →
  (∀ k, dict_get k acc = nonempty (filter (keyed k) seen)) →
  concat acc.*2 ≡ₚ seen →
  NoDup d.*1 ∧
  (∀ k, dict_get k d = nonempty (filter (keyed k) (seen ++ filter relevant obs))) ∧
  concat d.*2 ≡ₚ seen ++ filter relevant obs.
Proof.
  revert acc seen. induction obs as [|ob obs IH]; intros acc seen.
  - intros [= <-] ? ? ?. by rewrite filter_nil, (right_id_L [] (++)).
  - rewrite filter_relevant_cons, group_meshes_cons.
    destruct (relevant ob); [|apply IH].
    destruct (BlenderScene.mesh_key ob) as [k'|] eqn:Hk; [|done].
    intros Hrun Hnd Hget Hperm.
    replace (seen ++ ob :: filter relevant obs)
      with ((seen ++ [ob]) ++ filter relevant obs)
      by (by rewrite <-(assoc_L (++))).
    apply (IH _ _ Hrun).
    + by apply dict_append_NoDup.
    + intros k. rewrite dict_append_lookup, (filter_keyed_snoc _ _ _ _ Hk).
      case_decide as Hkk.
      * subst k'. by rewrite Hget, default_nonempty, nonempty_snoc.
      * by rewrite (right_id_L [] (++)).
    + rewrite dict_append_values, Hperm. apply Permutation_cons_append.
Qed.
End Grouping.

(** X14.  Objects that are not meshes, and meshes whose name contains
    ["tiles"] or ["type"], play no part in the grouping: they are not
    grouped and cannot make it raise. *)
Theorem group_meshes_ignores_others (obs : list BObject)
    (acc : pydict (string * string * string) (list BObject)) :
  BlenderScene.group_meshes obs acc =
  BlenderScene.group_meshes (filter relevant obs) acc.
Proof. apply group_meshes_filter. Qed.

(** X15.  The grouping returns normally exactly when every mesh it looks
    at has a grouping key; otherwise it raises the exception of the first
    such mesh, in the order of [bpy.data.objects], that has none. *)
Theorem group_meshes_raises_first (obs : list BObject)
    (acc : pydict (string * string * string) (list BObject)) :
  is_ok (BlenderScene.group_meshes obs acc) =
    forallb well_named (filter relevant obs) ∧
  (∀ e, BlenderScene.group_meshes obs acc = Raise e →
        ∃ pre ob post,
          filter relevant obs = pre ++ ob :: post ∧
          forallb well_named pre = true ∧
          BlenderScene.mesh_key ob = Raise e).
Proof.
  split; [apply group_meshes_ok|]. intros e. apply group_meshes_first_error.
Qed.

(** X16.  When the grouping returns normally, its keys are pairwise
    distinct, [mesh_objects[k]] exists exactly for the keys [k] of the
    meshes it looks at and lists the meshes with key [k] in the order of
    [bpy.data.objects], and every such mesh is in exactly one group: the
    groups together are a permutation of these meshes. *)
Theorem group_meshes_partition (obs : list BObject)
    (d : pydict (string * string * string) (list BObject)) :
  BlenderScene.group_meshes obs [] = Ok d →
  NoDup d.*1 ∧
  (∀ k, dict_get k d = nonempty (filter (keyed k) (filter relevant obs))) ∧
  concat d.*2 ≡ₚ filter relevant obs.
Proof.
  intros Hrun.
  by apply (group_meshes_invariant obs [] [] d Hrun); [apply NoDup_nil_2|..].
Qed.

Lemma group_meshes_partition_witness :
  BlenderScene.group_meshes RegroupExamples.scene_objects [] =
    Ok [(("wall", "12", "3"),
         [RegroupExamples.wall_a; RegroupExamples.wall_b]);
        (("floor", "7", "0"), [RegroupExamples.floor])] ∧
  dict_get ("wall", "12", "3")
    [(("wall", "12", "3"),
      [RegroupExamples.wall_a; RegroupExamples.wall_b]);
     (("floor", "7", "0"), [RegroupExamples.floor])]
  = nonempty (filter (keyed ("wall", "12", "3"))
                (filter relevant RegroupExamples.scene_objects)).
Proof.
  split; [reflexivity|].
  exact (proj1 (proj2 (group_meshes_partition RegroupExamples.scene_objects
                         [(("wall", "12", "3"),
                           [RegroupExamples.wall_a; RegroupExamples.wall_b]);
                          (("floor", "7", "0"), [RegroupExamples.floor])]
                         eq_refl)) ("wall", "12", "3")).
Defined.

(** ** Recentring and splitting (lines 95-119) *)

Section Regrouping.
Context {X : Type} `{Host X}.
Implicit Types (w : World X)
  (d : pydict (string * string * string) (list BObject)).

Lemma fmap_take_prefix {A B} (c : A → B) (k : nat) (l : list A) (rest : list B) :
  (c <$> take k l) `prefix_of` (c <$> l) ++ rest.
Proof.
  exists ((c <$> drop k l) ++ rest).
  by rewrite (assoc_L (++)), <-fmap_app, take_drop.
Qed.

(** The two loops of lines 95-119 over the groups [d], on any host. *)
Lemma regroup_loops d w :
  let m := for_each d (λ entry,
             for_each entry.2 (λ mesh,
               call (CallRecenter (ob_ref mesh)) (recenter_origin mesh)));;
           for_each d (λ entry,
             for_each (drop 1 entry.2) (λ mesh_obj,
               call (CallSplitInstance (ob_ref mesh_obj))
                 (split_instance mesh_obj))) in
  ∃ x' r evs,
    m w = (mkWorld (gltf w) (render_engine w) (selected w) (active w) x'
             (trace w ++ evs), r) ∧
    evs `prefix_of` recenter_calls d ++ split_calls d ∧
    (is_ok r = true → evs = recenter_calls d ++ split_calls d).
Proof.
  intros m. unfold m, recenter_calls, split_calls. rewrite bind_run.
  rewrite (for_each_concat d (λ entry, entry.2)
             (λ mesh, call (CallRecenter (ob_ref mesh)) (recenter_origin mesh))).
  destruct (call_loop (concat ((λ entry, entry.2) <$> d))
              (λ mesh, CallRecenter (ob_ref mesh)) recenter_origin w)
    as (x1 & r1 & k1 & -> & Hk1).
  destruct r1 as [[]|e]; simpl in Hk1.
  - rewrite (Hk1 eq_refl).
    rewrite (for_each_concat d (λ entry, drop 1 entry.2)
               (λ mesh_obj, call (CallSplitInstance (ob_ref mesh_obj))
                              (split_instance mesh_obj))).
    set (w1 := mkWorld _ _ _ _ _ _).
    destruct (call_loop (concat ((λ entry, drop 1 entry.2) <$> d))
                (λ mesh_obj, CallSplitInstance (ob_ref mesh_obj))
                split_instance w1)
      as (x2 & r2 & k2 & -> & Hk2).
    assert (concat ((λ entry, drop 1 entry.2) <$> d)
            = concat (drop 1 <$> d.*2)) as Hd
      by (by rewrite <-list_fmap_compose).
    rewrite Hd in *. unfold w1. simpl.
    eexists x2, r2, _. split; [by rewrite <-(assoc_L (++))|]. split.
    + apply prefix_app. eexists. by rewrite <-fmap_app, take_drop.
    + intros Hr. by rewrite (Hk2 Hr).
  - eexists x1, (Raise e), _. split; [done|]. split; [|done].
    apply fmap_take_prefix.
Qed.

Lemma regroup_meshes_run w :
  BlenderScene.regroup_meshes w =
  match BlenderScene.group_meshes (data_objects (host w)) [] with
  | Ok d =>
      (for_each d (λ entry,
         for_each entry.2 (λ mesh,
           call (CallRecenter (ob_ref mesh)) (recenter_origin mesh)));;
       for_each d (λ entry,
         for_each (drop 1 entry.2) (λ mesh_obj,
           call (CallSplitInstance (ob_ref mesh_obj))
             (split_instance mesh_obj)))) w
  | Raise e => (w, Raise e)
  end.
Proof.
  unfold BlenderScene.regroup_meshes. rewrite bind_run. simpl.
  rewrite bind_run. unfold lift at 1.
  by destruct (BlenderScene.group_meshes (data_objects (host w)) []).
Qed.

Lemma drop_heads_length {A} (L : list (list A)) :
  Forall (λ l, l ≠ []) L →
  (length (concat (drop 1 <$> L)) + length L = length (concat L))%nat.
Proof.
  induction 1 as [|l L Hl _ IH]; [done|].
  rewrite fmap_cons. cbn [concat]. rewrite !length_app. simpl length.
  destruct l as [|a l]; [done|]. simpl. rewrite drop_0. lia.
Qed.
End Regrouping.

(** X17.  Once the meshes are grouped, [create] recentres every grouped
    mesh, group by group and in the order of the groups, and only then
    replaces by an empty every mesh that is not the first of its group.
    On any host the calls made are an initial part of this list, all of
    it on a normal return; nothing but the host data is touched. *)
Theorem regroup_meshes_calls {X} `{Host X} (w : World X)
    (d : pydict (string * string * string) (list BObject)) :
  BlenderScene.group_meshes (data_objects (host w)) [] = Ok d →
  let r := BlenderScene.regroup_meshes w in
  emitted BlenderScene.regroup_meshes w
    `prefix_of` recenter_calls d ++ split_calls d ∧
  (r.2 = Ok tt →
   emitted BlenderScene.regroup_meshes w = recenter_calls d ++ split_calls d) ∧
  gltf r.1 = gltf w ∧ render_engine r.1 = render_engine w ∧
  selected r.1 = selected w ∧ active r.1 = active w.
Proof.
  intros Hd r. unfold r, emitted. rewrite regroup_meshes_run, Hd.
  destruct (regroup_loops d w) as (x' & r' & evs & -> & Hpre & Hall).
  simpl. rewrite drop_app_length. split; [done|]. split; [|done].
  intros ->. by apply Hall.
Qed.

Lemma regroup_meshes_calls_witness :
  let w := Reference.world (mkGltfData None None None)
             (RegroupExamples.with_objects RegroupExamples.scene_objects) in
  emitted BlenderScene.regroup_meshes w =
    [CallRecenter 1%nat; CallRecenter 2%nat; CallRecenter 3%nat;
     CallSplitInstance 2%nat].
Proof.
  intros w.
  assert (BlenderScene.group_meshes (data_objects (host w)) [] =
          Ok [(("wall", "12", "3"),
               [RegroupExamples.wall_a; RegroupExamples.wall_b]);
              (("floor", "7", "0"), [RegroupExamples.floor])]) as Hd
    by reflexivity.
  destruct (regroup_meshes_calls w _ Hd) as (_ & Hall & _).
  rewrite Hall; reflexivity.
Defined.

(** X18.  If one of the meshes the grouping looks at has no grouping
    key, the regrouping raises before it touches any object: no mesh is
    recentred or replaced, and the world is left as it was. *)
Theorem regroup_meshes_aborts {X} `{Host X} (w : World X) :
  forallb well_named (filter relevant (data_objects (host w))) = false →
  ∃ e, BlenderScene.regroup_meshes w = (w, Raise e).
Proof.
  intros Hbad. rewrite regroup_meshes_run.
  pose proof (group_meshes_ok (data_objects (host w)) []) as Hok.
  rewrite Hbad in Hok.
  destruct (BlenderScene.group_meshes (data_objects (host w)) []) as [d|e];
    [done|by exists e].
Qed.

Lemma regroup_meshes_aborts_witness :
  let w := Reference.world (mkGltfData None None None)
             (RegroupExamples.with_objects
                [RegroupExamples.wall_a; RegroupExamples.cube]) in
  ∃ e, BlenderScene.regroup_meshes w = (w, Raise e).
Proof. intros w. exact (regroup_meshes_aborts w eq_refl). Defined.

(** X19.  When lines 82-119 return normally, the recentring calls they
    make are one call for each mesh the grouping looks at, and the calls
    that replace a mesh by an empty follow them and are as many as these
    meshes less one for each group: the meshes after the first of their
    group. *)
Theorem regroup_meshes_call_counts {X} `{Host X} (w : World X) :
  (BlenderScene.regroup_meshes w).2 = Ok tt →
  let evs := emitted BlenderScene.regroup_meshes w in
  ∃ d,
    BlenderScene.group_meshes (data_objects (host w)) [] = Ok d ∧
    evs = ((λ ob, CallRecenter (ob_ref ob)) <$> concat d.*2)
          ++ ((λ ob, CallSplitInstance (ob_ref ob))
                <$> concat (drop 1 <$> d.*2)) ∧
    recentered evs ≡ₚ ob_ref <$> filter relevant (data_objects (host w)) ∧
    emptied evs = ob_ref <$> concat (drop 1 <$> d.*2) ∧
    (length (emptied evs) + length d = length (recentered evs))%nat.
Proof.
  intros Hok evs. unfold evs, emitted. revert Hok.
  rewrite regroup_meshes_run.
  destruct (BlenderScene.group_meshes (data_objects (host w)) [])
    as [d|e] eqn:Hd; [|done].
  destruct (regroup_loops d w) as (x' & r' & evs' & -> & _ & Hall).
  simpl. intros ->. rewrite drop_app_length, (Hall eq_refl).
  unfold recenter_calls, split_calls.
  destruct (group_meshes_invariant _ [] [] d Hd)
    as (Hnd & Hget & Hperm); [apply NoDup_nil_2|done|done|].
  assert (∀ l : list BObject,
            recentered ((λ ob, CallRecenter (ob_ref ob)) <$> l) = ob_ref <$> l)
    as Hrr by (induction l as [|? ? IH]; [done|]; simpl; by f_equal).
  assert (∀ l : list BObject,
            recentered ((λ ob, CallSplitInstance (ob_ref ob)) <$> l) = [])
    as Hrs by (induction l as [|? ? IH]; [done|]; exact IH).
  assert (∀ l : list BObject,
            emptied ((λ ob, CallRecenter (ob_ref ob)) <$> l) = [])
    as Her by (induction l as [|? ? IH]; [done|]; exact IH).
  assert (∀ l : list BObject,
            emptied ((λ ob, CallSplitInstance (ob_ref ob)) <$> l) = ob_ref <$> l)
    as Hes by (induction l as [|? ? IH]; [done|]; simpl; by f_equal).
  exists d. split; [done|]. split; [done|].
  unfold recentered, emptied. rewrite !omap_app.
  fold (recentered ((λ ob, CallRecenter (ob_ref ob)) <$> concat d.*2)).
  fold (recentered ((λ ob, CallSplitInstance (ob_ref ob))
                      <$> concat (drop 1 <$> d.*2))).
  fold (emptied ((λ ob, CallRecenter (ob_ref ob)) <$> concat d.*2)).
  fold (emptied ((λ ob, CallSplitInstance (ob_ref ob))
                   <$> concat (drop 1 <$> d.*2))).
  rewrite Hrr, Hrs, Her, Hes, (right_id_L [] (++)). simpl.
  split; [by rewrite Hperm|]. split; [done|].
  rewrite !length_fmap, <-(length_fmap snd d). apply drop_heads_length.
  apply Forall_forall. intros l [[k l'] [-> Hin]]%list_elem_of_fmap.
  apply (dict_get_NoDup _ _ _ Hnd) in Hin. rewrite Hget in Hin.
  simpl. intros ->. unfold nonempty in Hin. by case_match.
Qed.

Lemma regroup_meshes_call_counts_witness :
  let w := Reference.world (mkGltfData None None None)
             (RegroupExamples.with_objects RegroupExamples.scene_objects) in
  let evs := emitted BlenderScene.regroup_meshes w in
  ∃ d : pydict (string * string * string) (list BObject),
    length d = 2%nat ∧ recentered evs ≡ₚ [1; 3; 2]%nat ∧
       (length (emptied evs) + length d = length (recentered evs))%nat.
Proof.
  intros w evs.
  destruct (regroup_meshes_call_counts w) as (d & Hd & _ & Hperm & _ & Hlen).
  - reflexivity.
  - exists d. split; [|split; [exact Hperm | exact Hlen]].
    assert (Ok d = Ok [(("wall", "12", "3"),
                        [RegroupExamples.wall_a; RegroupExamples.wall_b]);
                       (("floor", "7", "0"), [RegroupExamples.floor])])
      as [= ->]; [|reflexivity].
    rewrite <-Hd. reflexivity.
Defined.
